(** * Sun.py: solar rise/set, twilight, day length, altitude and flux

    A shallow embedding of [Sun.py] (class [Sun]).

    - Python [int] values (year, month, day, [upper_limb]) are [Z].
    - Python [float] values are idealised as real numbers [R]: rounding,
      signed zeros, infinities and NaN are not modelled.
    - The exceptions the arithmetic can raise ([ZeroDivisionError] of [/],
      [ValueError] of [math.sqrt] and [math.acos], [IndexError] of list
      indexing) are explicit, in a small error monad that also records
      every argument handed to [__acosd]. *)

From Stdlib Require Import ZArith Reals Lra Lia List String Bool.
Import ListNotations.

(** ** Calendar arithmetic (integers) *)

Module Calendar.
Local Open Scope Z_scope.

(** [calendar.isleap] of the Python standard library. *)
Definition isleap (year : Z) : bool :=
  (year mod 4 =? 0) && (negb (year mod 100 =? 0) || (year mod 400 =? 0)).

(** [Sun.__daysSince2000Jan0]; [/] on Python 2 integers is floor division,
    which on the non-negative operands met here is also truncation. *)
Definition __daysSince2000Jan0 (y m d : Z) : Z :=
  367 * y - 7 * (y + (m + 9) / 12) / 4 + 275 * m / 9 + d - 730530.

(** The same formula with every division truncating ([Z.quot]). *)
Definition daysSince2000Jan0_trunc (y m d : Z) : Z :=
  367 * y - Z.quot (7 * (y + Z.quot (m + 9) 12)) 4 + Z.quot (275 * m) 9
  + d - 730530.

(** The Gregorian calendar: month lengths and the day after a date. *)
Definition days_in_month (y m : Z) : Z :=
  if m =? 2 then (if isleap y then 29 else 28)
  else if (m =? 4) || (m =? 6) || (m =? 9) || (m =? 11) then 30
  else 31.

Definition valid_date (y m d : Z) : bool :=
  (1 <=? m) && (m <=? 12) && (1 <=? d) && (d <=? days_in_month y m).

Definition supported_date (y m d : Z) : bool :=
  (1801 <=? y) && (y <=? 2099) && valid_date y m d.

Definition next_date (y m d : Z) : Z * Z * Z :=
  if d <? days_in_month y m then (y, m, d + 1)
  else if m <? 12 then (y, m + 1, 1)
  else (y + 1, 1, 1).

(** Days from 1999-12-31 to a date, counted on the Gregorian calendar:
    whole years from 2000, then whole months, then days. *)
Definition days_in_year (y : Z) : Z := if isleap y then 366 else 365.

Fixpoint days_of_years (from : Z) (n : nat) : Z :=
  match n with
  | O => 0
  | S k => days_in_year from + days_of_years (from + 1) k
  end.

Fixpoint days_of_months (y : Z) (from : Z) (n : nat) : Z :=
  match n with
  | O => 0
  | S k => days_in_month y from + days_of_months y (from + 1) k
  end.

Definition year_offset (y : Z) : Z :=
  if 2000 <=? y then days_of_years 2000 (Z.to_nat (y - 2000))
  else - days_of_years y (Z.to_nat (2000 - y)).

Definition gregorian_days (y m d : Z) : Z :=
  year_offset y + days_of_months y 1 (Z.to_nat (m - 1)) + d.

(** All the valid dates of a span of years, for exhaustive checks; [f y]
    is computed once per year and handed to the check. *)
Definition range (from : Z) (n : nat) : list Z :=
  map (fun i => from + Z.of_nat i) (seq 0 n).

Definition all_dates {A : Type} (f : Z -> A) (P : A -> Z -> Z -> Z -> bool)
    (y0 : Z) (ny : nat) : bool :=
  forallb (fun y =>
    let a := f y in
    forallb (fun m =>
      forallb (fun d => negb (valid_date y m d) || P a y m d) (range 1 31))
      (range 1 12))
    (range y0 ny).

(** [Sun.__julian]: day of the year from two cumulative month tables.
    A Python list index below zero counts from the end of the list; an index
    outside the list raises [IndexError], rendered here as [None]. *)
Definition py_index (l : list Z) (i : Z) : option Z :=
  let n := Z.of_nat (List.length l) in
  let j := if i <? 0 then i + n else i in
  if (0 <=? j) && (j <? n) then nth_error l (Z.to_nat j) else None.

Definition __julian (year month day : Z) : option Z :=
  let lMonth :=
    if isleap year
    then [0; 31; 60; 91; 121; 152; 182; 213; 244; 274; 305; 335; 366]
    else [0; 31; 59; 90; 120; 151; 181; 212; 243; 273; 304; 334; 365] in
  match py_index lMonth (month - 1) with
  | Some b => Some (b + day)
  | None => None
  end.

End Calendar.

(** ** The error monad, with the record of the calls of [__acosd] *)

Inductive exn : Type :=
| ZeroDivisionError
| ValueError (fn : string)
| IndexError.

Inductive outcome (A : Type) : Type :=
| Ok (a : A)
| Raise (e : exn).
Arguments Ok {A} a.
Arguments Raise {A} e.

(** A computation yields the arguments [__acosd] was called with, in
    order, and its outcome. *)
Definition M (A : Type) : Type := (list R * outcome A)%type.

Definition ret {A : Type} (a : A) : M A := ([], Ok a).
Definition raise {A : Type} (e : exn) : M A := ([], Raise e).
Definition bind {A B : Type} (m : M A) (f : A -> M B) : M B :=
  match m with
  | (l, Ok a) => let (l', r) := f a in (l ++ l', r)
  | (l, Raise e) => (l, Raise e)
  end.

Definition acosd_args {A : Type} (m : M A) : list R := fst m.
Definition result {A : Type} (m : M A) : outcome A := snd m.

Declare Scope monad_scope.
Delimit Scope monad_scope with monad.
Notation "x <- m ;; k" := (bind m (fun x => k))
  (at level 61, m at next level, right associativity) : monad_scope.
Notation "' pat <- m ;; k" := (bind m (fun x => match x with pat => k end))
  (at level 61, pat pattern, m at next level, right associativity)
  : monad_scope.

(** ** Sun.py over the reals *)

Module Sun.
Import Calendar.
Local Open Scope R_scope.
Local Open Scope monad_scope.

(** *** The [math] module *)

Definition radians (x : R) : R := x * PI / 180.
Definition degrees (x : R) : R := x * 180 / PI.

(** [math.floor] (a float in Python 2). *)
Definition floor (x : R) : R := IZR (Int_part x).

Definition hypot (x y : R) : R := sqrt (x * x + y * y).

(** [math.atan2 y x], the angle of the point [(x, y)], in (-PI, PI]. *)
Definition atan2 (y x : R) : R :=
  if Rlt_dec 0 x then atan (y / x)
  else if Rlt_dec x 0 then
    (if Rle_dec 0 y then atan (y / x) + PI else atan (y / x) - PI)
  else if Rlt_dec 0 y then PI / 2
  else if Rlt_dec y 0 then - (PI / 2)
  else 0.

(** [math.sqrt] and [math.acos] raise [ValueError] outside their domain. *)
Definition math_sqrt (x : R) : M R :=
  if Rle_dec 0 x then ret (sqrt x) else raise (ValueError "sqrt").

Definition math_acos (x : R) : M R :=
  if Rle_dec (-1) x
  then (if Rle_dec x 1 then ret (acos x) else raise (ValueError "acos"))
  else raise (ValueError "acos").

(** Float division [a / b] by a computed divisor. *)
Definition fdiv (a b : R) : M R :=
  if Req_dec_T b 0 then raise ZeroDivisionError else ret (a / b).

(** Truth value of a Python integer. *)
Definition truthy (n : Z) : bool := negb (n =? 0)%Z.

(** *** The trigonometric functions in degrees *)

Definition __sind (x : R) : R := sin (radians x).
Definition __cosd (x : R) : R := cos (radians x).
Definition __acosd (x : R) : M R :=
  bind ([x], Ok tt) (fun _ => a <- math_acos x ;; ret (degrees a)).
Definition __atan2d (y x : R) : R := degrees (atan2 y x).

(** *** Angle reduction *)

Definition __revolution (x : R) : R := x - 360 * floor (x / 360).
Definition __rev180 (x : R) : R := x - 360 * floor (x / 360 + 0.5).

Definition __GMST0 (d : R) : R :=
  __revolution (180 + 356.0470 + 282.9404 + (0.9856002585 + 4.70935e-5) * d).

(** *** The Sun's position *)

Definition __sunpos (d : R) : M (R * R) :=
  let M := __revolution (356.0470 + 0.9856002585 * d) in
  let w := 282.9404 + 4.70935e-5 * d in
  let e := 0.016709 - 1.151e-9 * d in
  let E := M + degrees e * __sind M * (1 + e * __cosd M) in
  let x := __cosd E - e in
  s <- math_sqrt (1 - e * e) ;;
  let y := s * __sind E in
  let r := hypot x y in
  let v := __atan2d y x in
  let lon := v + w in
  let lon := if Rge_dec lon 360 then lon - 360 else lon in
  ret (lon, r).

Definition __sunRADec (d : R) : M (R * R * R) :=
  '(lon, r) <- __sunpos d ;;
  let x := r * __cosd lon in
  let y := r * __sind lon in
  let obl_ecl := 23.4393 - 3.563e-7 * d in
  let z := y * __sind obl_ecl in
  let y := y * __cosd obl_ecl in
  ret (__atan2d y x, __atan2d z (hypot x y), r).

(** *** The workhorses *)

Definition __sunriset (year month day : Z) (lon lat altit : R)
    (upper_limb : Z) : M (R * R) :=
  let d := IZR (__daysSince2000Jan0 year month day) + 0.5 - lon / 360 in
  let sidtime := __revolution (__GMST0 d + 180 + lon) in
  '(sRA, sdec, sr) <- __sunRADec d ;;
  let tsouth := 12 - __rev180 (sidtime - sRA) / 15 in
  sradius <- fdiv 0.2666 sr ;;
  let altit := if truthy upper_limb then altit - sradius else altit in
  cost <- fdiv (__sind altit - __sind lat * __sind sdec)
               (__cosd lat * __cosd sdec) ;;
  t <- (if Rge_dec cost 1 then ret 0
        else if Rle_dec cost (-1) then ret 12
        else a <- __acosd cost ;; ret (a / 15)) ;;
  ret (tsouth - t, tsouth + t).

Definition __daylen (year month day : Z) (lon lat altit : R)
    (upper_limb : Z) : M R :=
  let d := IZR (__daysSince2000Jan0 year month day) + 0.5 - lon / 360 in
  let obl_ecl := 23.4393 - 3.563e-7 * d in
  '(slon, sr) <- __sunpos d ;;
  let sin_sdecl := __sind obl_ecl * __sind slon in
  cos_sdecl <- math_sqrt (1 - sin_sdecl * sin_sdecl) ;;
  sradius <- fdiv 0.2666 sr ;;
  let altit := if truthy upper_limb then altit - sradius else altit in
  cost <- fdiv (__sind altit - __sind lat * sin_sdecl)
               (__cosd lat * cos_sdecl) ;;
  if Rge_dec cost 1 then ret 0
  else if Rle_dec cost (-1) then ret 24
  else a <- __acosd cost ;; ret (2 / 15 * a).

(** *** The macros around the workhorses *)

Definition dayLength (year month day : Z) (lon lat : R) : M R :=
  __daylen year month day lon lat (-35 / 60) 1.
Definition dayCivilTwilightLength (year month day : Z) (lon lat : R) : M R :=
  __daylen year month day lon lat (-6) 0.
Definition dayNauticalTwilightLength (year month day : Z) (lon lat : R)
    : M R :=
  __daylen year month day lon lat (-12) 0.
Definition dayAstronomicalTwilightLength (year month day : Z) (lon lat : R)
    : M R :=
  __daylen year month day lon lat (-18) 0.

Definition sunRiseSet (year month day : Z) (lon lat : R) : M (R * R) :=
  __sunriset year month day lon lat (-35 / 60) 1.
Definition aviationTime (year month day : Z) (lon lat : R) : M (R * R) :=
  '(r, s) <- __sunriset year month day lon lat (-35 / 60) 1 ;;
  ret (r - 0.5, s + 0.5).
Definition civilTwilight (year month day : Z) (lon lat : R) : M (R * R) :=
  __sunriset year month day lon lat (-6) 0.
Definition nauticalTwilight (year month day : Z) (lon lat : R) : M (R * R) :=
  __sunriset year month day lon lat (-12) 0.
Definition astronomicalTwilight (year month day : Z) (lon lat : R)
    : M (R * R) :=
  __sunriset year month day lon lat (-18) 0.

(** *** Solar altitude *)

Definition __solar_altitude (latitude : R) (year month day : Z) : M R :=
  let N := __daysSince2000Jan0 year month day in
  '(sRA, dec, sr) <- __sunRADec (IZR N) ;;
  let altitude := 90 - latitude + dec in
  if Rgt_dec altitude 90 then ret (180 - altitude)
  else if Rlt_dec altitude 0 then ret 0
  else ret altitude.

(** *** Solar flux *)

Definition __solcons (dAlf : R) : M R :=
  fdiv 1 ((1 - 9.464e-4 * sin dAlf - 0.01671 * cos dAlf
           - 1.489e-4 * cos (2 * dAlf)
           - 2.917e-5 * sin (3 * dAlf)
           - 3.438e-4 * cos (4 * dAlf)) ^ 2).

Definition __equation_of_time (year month day : Z) (latitude : R)
    : M (R * R * (R * R)) :=
  nJulianDate <- match __julian year month day with
                 | Some n => ret (IZR n)
                 | None => raise IndexError
                 end ;;
  let fDivide := 2 * PI / (if isleap year then 366 else 365) in
  let fA := nJulianDate * fDivide in
  c <- __solcons fA ;;
  let fR0r := c * 0.1367e4 in
  let fRdecl := 0.412 * cos ((nJulianDate + 10) * fDivide - PI) in
  let fDeclsc1 := __sind latitude * sin fRdecl in
  let fDeclsc2 := __cosd latitude * cos fRdecl in
  let tDeclsc := (fDeclsc1, fDeclsc2) in
  let fEot := 0.002733
              - 7.3430 * sin fA + 0.55190 * cos fA
              - 9.4700 * sin (2 * fA) - 3.02000 * cos (2 * fA)
              - 0.3289 * sin (3 * fA) - 0.07581 * cos (3 * fA)
              - 0.1935 * sin (4 * fA) - 0.12450 * cos (4 * fA) in
  let fEot := radians (fEot * 15 / 60) in
  ret (fEot, fR0r, tDeclsc).

(** The quartic attenuation polynomial of [__get_max_solar_flux]. *)
Definition attenuation (fSF : R) : R :=
  -1.56e-12 * fSF ^ 4 + 5.972e-9 * fSF ^ 3 - 8.364e-6 * fSF ^ 2
  + 5.183e-3 * fSF - 0.435.

Definition __get_max_solar_flux (latitude : R) (year month day : Z) : M R :=
  '(fEot, fR0r, tDeclsc) <- __equation_of_time year month day latitude ;;
  let fSF := (fst tDeclsc + snd tDeclsc) * fR0r in
  let fCoeff := if Rlt_dec fSF 0 then 0 else attenuation fSF in
  let fSFT := fSF * fCoeff in
  let fSFT := if Rlt_dec fSFT 0 then 0 else fSFT in
  ret fSFT.

(** *** Names for the local variables of [__sunpos] and [__sunRADec]

    The values the locals [M], [w], [e], [E], [x], [y], [v] of [__sunpos]
    and [obl_ecl] of [__sunRADec] and [__daylen] take at the instant [d],
    for use in statements. *)

Definition sunpos_M (d : R) : R := __revolution (356.0470 + 0.9856002585 * d).
Definition sunpos_w (d : R) : R := 282.9404 + 4.70935e-5 * d.
Definition sunpos_e (d : R) : R := 0.016709 - 1.151e-9 * d.
Definition sunpos_E (d : R) : R :=
  sunpos_M d
  + degrees (sunpos_e d) * __sind (sunpos_M d)
    * (1 + sunpos_e d * __cosd (sunpos_M d)).
Definition sunpos_x (d : R) : R := __cosd (sunpos_E d) - sunpos_e d.
Definition sunpos_y (d : R) : R :=
  sqrt (1 - sunpos_e d * sunpos_e d) * __sind (sunpos_E d).
Definition sunpos_v (d : R) : R := __atan2d (sunpos_y d) (sunpos_x d).
Definition obl_ecl (d : R) : R := 23.4393 - 3.563e-7 * d.

(** The equatorial rectangular coordinates [x], [y] (after the rotation)
    and [z] of [__sunRADec], from the longitude [lon] and distance [r]
    that [__sunpos] returned. *)
Definition radec_x (r lon : R) : R := r * __cosd lon.
Definition radec_y (d r lon : R) : R := r * __sind lon * __cosd (obl_ecl d).
Definition radec_z (d r lon : R) : R := r * __sind lon * __sind (obl_ecl d).

(** The instant [d] of [__sunriset] and [__daylen]: 12h local mean solar
    time of the date. *)
Definition local_noon (year month day : Z) (lon : R) : R :=
  IZR (__daysSince2000Jan0 year month day) + 0.5 - lon / 360.

(** The value of the local [cost] of [__daylen], from the Sun's longitude
    [slon] and distance [sr] that [__sunpos] returned. *)
Definition daylen_cost (d lat altit : R) (upper_limb : Z) (slon sr : R) : R :=
  let sin_sdecl := __sind (obl_ecl d) * __sind slon in
  let cos_sdecl := sqrt (1 - sin_sdecl * sin_sdecl) in
  let altit := if truthy upper_limb then altit - 0.2666 / sr else altit in
  (__sind altit - __sind lat * sin_sdecl) / (__cosd lat * cos_sdecl).

(** The value of the local [cost] of [__sunriset], from the declination
    [sdec] and distance [sr] that [__sunRADec] returned. *)
Definition sunriset_cost (lat altit : R) (upper_limb : Z) (sdec sr : R) : R :=
  let altit := if truthy upper_limb then altit - 0.2666 / sr else altit in
  (__sind altit - __sind lat * __sind sdec) / (__cosd lat * __cosd sdec).

(** The value of the local [t] of [__sunriset], the diurnal arc in hours,
    from [cost]. *)
Definition diurnal_arc (cost : R) : R :=
  if Rge_dec cost 1 then 0
  else if Rle_dec cost (-1) then 12
  else degrees (acos cost) / 15.

(** The calls of [__acosd] that the test on [cost] leads to, in both
    workhorses. *)
Definition acosd_trace (cost : R) : list R :=
  if Rge_dec cost 1 then []
  else if Rle_dec cost (-1) then []
  else [cost].

(** A computation that called [__acosd] inside its open domain only, and
    did not raise the [ValueError] of [math.acos]. *)
Definition acos_safe {A : Type} (m : M A) : Prop :=
  Forall (fun x => -1 < x < 1) (acosd_args m) /\
  result m <> Raise (ValueError "acos").

(** The value [__daylen] returns, from [cost]. *)
Definition daylen_of_cost (cost : R) : R :=
  if Rge_dec cost 1 then 0
  else if Rle_dec cost (-1) then 24
  else 2 / 15 * degrees (acos cost).

(** The value of the local [tsouth] of [__sunriset], from the right
    ascension [sRA] that [__sunRADec] returned. *)
Definition sunriset_tsouth (d lon sRA : R) : R :=
  12 - __rev180 (__revolution (__GMST0 d + 180 + lon) - sRA) / 15.

(** *** The orbital position as the specification words it

    Section 4.3 of the specification: the same mean elements and
    rectangular coordinates, and the true longitude as the reduction to
    [0, 360) of [v + w]. *)
Definition spec_sunEclipticPosition (d : R) : M (R * R) :=
  let M := __revolution (356.0470 + 0.9856002585 * d) in
  let w := 282.9404 + 4.70935e-5 * d in
  let e := 0.016709 - 1.151e-9 * d in
  let E := M + degrees e * __sind M * (1 + e * __cosd M) in
  let x := __cosd E - e in
  s <- math_sqrt (1 - e * e) ;;
  let y := s * __sind E in
  let r := hypot x y in
  let v := __atan2d y x in
  ret (__revolution (v + w), r).

(** A geographic longitude of the data model. *)
Definition supported_lon (lon : R) : Prop := -180 <= lon <= 180.

(** A rise/set computation yields a normal crossing when its diurnal arc,
    half the span from rise to set, is strictly between 0 and 12 hours;
    its dawn is the first component of the pair. *)
Definition normal_crossing (m : M (R * R)) : Prop :=
  exists rise set, result m = Ok (rise, set) /\ 0 < (set - rise) / 2 < 12.

Definition dawn (m : M (R * R)) (t : R) : Prop :=
  exists set, result m = Ok (t, set).

End Sun.

(** ** index.py: the clock arithmetic of [Suncal] *)

Module Suncal.
Local Open Scope R_scope.






End Suncal.

(** * Properties *)

Import Calendar Sun.
Local Open Scope R_scope.

(** ** The day count against the Gregorian calendar *)

Section DayCount.
Local Open Scope Z_scope.


Lemma daysSince_trunc_eq y m d :
  0 <= y -> 0 <= m -> daysSince2000Jan0_trunc y m d = __daysSince2000Jan0 y m d.
Proof.
  intros Hy Hm. unfold daysSince2000Jan0_trunc, __daysSince2000Jan0.
  rewrite (Z.quot_div_nonneg (m + 9) 12) by lia.
  rewrite (Z.quot_div_nonneg (275 * m) 9) by lia.
  rewrite Z.quot_div_nonneg; [reflexivity | | lia].
  assert (0 <= (m + 9) / 12) by (apply Z.div_pos; lia). lia.
Qed.

(** Claim C1 fails on the code: on 1900-02-28, a supported date,
    [__daysSince2000Jan0] (with floor or with truncating division) returns
    -36466 where the Gregorian calendar counts -36465 days from
    1999-12-31, and the formula puts 1900-03-01, the next day, 2 days
    later: it counts a 29 February 1900. *)
Theorem daysSince_1900_02_28 :
  supported_date 1900 2 28 = true /\
  daysSince2000Jan0_trunc 1900 2 28 = -36466 /\
  __daysSince2000Jan0 1900 2 28 = -36466 /\
  gregorian_days 1900 2 28 = -36465 /\
  next_date 1900 2 28 = (1900, 3, 1) /\
  __daysSince2000Jan0 1900 3 1 = __daysSince2000Jan0 1900 2 28 + 2.
Proof. repeat split; vm_compute; reflexivity. Qed.

Lemma all_dates_spec {A} (f : Z -> A) P y0 ny :
  all_dates f P y0 ny = true ->
  forall y m d, y0 <= y < y0 + Z.of_nat ny -> valid_date y m d = true ->
    P (f y) y m d = true.
Proof.
  unfold all_dates. intros H y m d Hy Hv.
  rewrite forallb_forall in H.
  assert (Hin : forall a n x, a <= x < a + Z.of_nat n -> In x (range a n)).
  { intros a n x Hx. unfold range. apply in_map_iff.
    exists (Z.to_nat (x - a)). split; [lia |]. apply in_seq. lia. }
  specialize (H y (Hin _ _ _ Hy)). cbv zeta in H.
  rewrite forallb_forall in H.
  assert (Hv' := Hv). unfold valid_date in Hv'.
  repeat (apply andb_prop in Hv'; destruct Hv' as [Hv' ?]).
  assert (days_in_month y m <= 31).
  { unfold days_in_month. repeat (destruct (_ =? _); simpl); destruct (isleap y); lia. }
  specialize (H m (Hin 1 12%nat m ltac:(lia))).
  rewrite forallb_forall in H.
  specialize (H d (Hin 1 31%nat d ltac:(lia))).
  rewrite Hv in H. exact H.
Qed.

Lemma daysSince_correct_from_1901 y m d :
  1901 <= y <= 2099 -> valid_date y m d = true ->
  __daysSince2000Jan0 y m d = gregorian_days y m d.
Proof.
  intros Hy Hv.
  assert (H : all_dates year_offset
    (fun off y m d => __daysSince2000Jan0 y m d
                      =? off + days_of_months y 1 (Z.to_nat (m - 1)) + d)
    1901 199 = true) by (vm_compute; reflexivity).
  pose proof (all_dates_spec _ _ _ _ H y m d ltac:(lia) Hv) as E.
  apply Z.eqb_eq in E. exact E.
Qed.

Lemma daysSince_off_by_one_before_1900 y m d :
  1801 <= y <= 1899 -> valid_date y m d = true ->
  __daysSince2000Jan0 y m d = gregorian_days y m d - 1.
Proof.
  intros Hy Hv.
  assert (H : all_dates year_offset
    (fun off y m d => __daysSince2000Jan0 y m d
                      =? off + days_of_months y 1 (Z.to_nat (m - 1)) + d - 1)
    1801 99 = true) by (vm_compute; reflexivity).
  pose proof (all_dates_spec _ _ _ _ H y m d ltac:(lia) Hv) as E.
  apply Z.eqb_eq in E. exact E.
Qed.

End DayCount.

(** ** [math.floor] and the angle reductions *)

Lemma floor_bounds x : floor x <= x < floor x + 1.
Proof. unfold floor. destruct (base_Int_part x). lra. Qed.

Lemma floor_unique x (z : Z) : IZR z <= x < IZR z + 1 -> floor x = IZR z.
Proof.
  intros H. unfold floor. f_equal. symmetry. apply Int_part_spec. lra.
Qed.

Lemma floor_plus_int x (k : Z) : floor (x + IZR k) = floor x + IZR k.
Proof.
  unfold floor at 2. rewrite <- plus_IZR. apply floor_unique.
  rewrite plus_IZR. fold (floor x). pose proof (floor_bounds x). lra.
Qed.

Lemma revolution_range x : 0 <= __revolution x < 360.
Proof. unfold __revolution. pose proof (floor_bounds (x / 360)). lra. Qed.

Lemma revolution_periodic x (k : Z) : __revolution (x + 360 * IZR k) = __revolution x.
Proof.
  unfold __revolution.
  replace ((x + 360 * IZR k) / 360) with (x / 360 + IZR k) by lra.
  rewrite floor_plus_int. lra.
Qed.

Lemma rev180_range x : -180 <= __rev180 x < 180.
Proof. unfold __rev180. pose proof (floor_bounds (x / 360 + 0.5)). lra. Qed.

Lemma rev180_periodic x (k : Z) : __rev180 (x + 360 * IZR k) = __rev180 x.
Proof.
  unfold __rev180.
  replace ((x + 360 * IZR k) / 360 + 0.5) with (x / 360 + 0.5 + IZR k) by lra.
  rewrite floor_plus_int. lra.
Qed.

Lemma rev180_180 : __rev180 180 = -180.
Proof.
  unfold __rev180. rewrite (floor_unique _ 1); lra.
Qed.

(** ** The error monad *)

Lemma bind_ret {A B} (a : A) (f : A -> M B) : bind (ret a) f = f a.
Proof. unfold bind, ret. destruct (f a). reflexivity. Qed.

Lemma bind_raise {A B} (e : exn) (f : A -> M B) : bind (raise e) f = raise e.
Proof. reflexivity. Qed.

Lemma fdiv_ok a b : b <> 0 -> fdiv a b = ret (a / b).
Proof. intros H. unfold fdiv. destruct (Req_dec_T b 0); [contradiction | reflexivity]. Qed.

Lemma fdiv_zero a : fdiv a 0 = raise ZeroDivisionError.
Proof. unfold fdiv. destruct (Req_dec_T 0 0); [reflexivity | contradiction]. Qed.

Lemma math_sqrt_ok x : 0 <= x -> math_sqrt x = ret (sqrt x).
Proof. intros H. unfold math_sqrt. destruct (Rle_dec 0 x); [reflexivity | contradiction]. Qed.

Lemma acosd_ok x : -1 <= x <= 1 -> __acosd x = ([x], Ok (degrees (acos x))).
Proof.
  intros [H1 H2]. unfold __acosd, math_acos.
  destruct (Rle_dec (-1) x); [| contradiction].
  destruct (Rle_dec x 1); [| contradiction]. reflexivity.
Qed.

(** ** [__acosd] is called inside its domain *)

Lemma acos_safe_ret {A} (a : A) : acos_safe (ret a).
Proof. split; [constructor | discriminate]. Qed.

Lemma acos_safe_bind {A B} (m : M A) (f : A -> M B) :
  acos_safe m -> (forall a, acos_safe (f a)) -> acos_safe (bind m f).
Proof.
  unfold acos_safe, acosd_args, result.
  intros [Hm1 Hm2] Hf. destruct m as [l [a | e]]; simpl in *.
  - specialize (Hf a). destruct (f a) as [l' r]. destruct Hf as [Hf1 Hf2].
    split; simpl in *; [apply Forall_app; split; assumption | assumption].
  - split; [assumption |].
    intros H. apply Hm2. injection H as ->. reflexivity.
Qed.

Lemma acos_safe_fdiv a b : acos_safe (fdiv a b).
Proof. unfold fdiv. destruct (Req_dec_T b 0); split; simpl; (constructor || discriminate). Qed.

Lemma acos_safe_sqrt x : acos_safe (math_sqrt x).
Proof. unfold math_sqrt. destruct (Rle_dec 0 x); split; simpl; (constructor || discriminate). Qed.

Lemma acos_safe_acosd x : -1 < x < 1 -> acos_safe (__acosd x).
Proof.
  intros H. rewrite acosd_ok by lra. split; simpl.
  - constructor; [assumption | constructor].
  - discriminate.
Qed.

Create HintDb acos_safe.
#[local] Hint Resolve acos_safe_ret acos_safe_fdiv acos_safe_sqrt : acos_safe.

(** One step through a computation: a [bind], a test or a pattern on a
    tuple, the call of [__acosd] past the two tests on [cost], or a leaf. *)
Ltac acos_safe_step :=
  match goal with
  | |- acos_safe (bind _ _) => apply acos_safe_bind; [| intros ?]
  | |- acos_safe (match ?x with _ => _ end) => destruct x
  | |- acos_safe (__acosd _) => apply acos_safe_acosd; lra
  | |- acos_safe _ => solve [auto with acos_safe]
  end.

Lemma acos_safe_sunpos d : acos_safe (__sunpos d).
Proof. unfold __sunpos. repeat acos_safe_step. Qed.

#[local] Hint Resolve acos_safe_sunpos : acos_safe.

Lemma acos_safe_sunRADec d : acos_safe (__sunRADec d).
Proof. unfold __sunRADec. repeat acos_safe_step. Qed.

#[local] Hint Resolve acos_safe_sunRADec : acos_safe.

Lemma acos_safe_sunriset y m d lon lat altit ul :
  acos_safe (__sunriset y m d lon lat altit ul).
Proof. unfold __sunriset. repeat acos_safe_step. Qed.

Lemma acos_safe_daylen y m d lon lat altit ul :
  acos_safe (__daylen y m d lon lat altit ul).
Proof. unfold __daylen. repeat acos_safe_step. Qed.

(** ** Degrees and radians, [hypot] and [atan2] *)

Lemma radians_degrees a : radians (degrees a) = a.
Proof. unfold radians, degrees. field. apply PI_neq0. Qed.

Lemma degrees_radians a : degrees (radians a) = a.
Proof. unfold radians, degrees. field. apply PI_neq0. Qed.

Lemma degrees_le a b : a <= b -> degrees a <= degrees b.
Proof.
  intros H. unfold degrees. pose proof PI_RGT_0.
  apply Rmult_le_compat_r; [left; apply Rinv_0_lt_compat; lra | lra].
Qed.

Lemma degrees_lt a b : a < b -> degrees a < degrees b.
Proof.
  intros H. unfold degrees. pose proof PI_RGT_0.
  apply Rmult_lt_compat_r; [apply Rinv_0_lt_compat; lra | lra].
Qed.

Lemma degrees_PI : degrees PI = 180.
Proof. unfold degrees. field. apply PI_neq0. Qed.

Lemma degrees_0 : degrees 0 = 0.
Proof. unfold degrees. field. apply PI_neq0. Qed.

Lemma radians_le a b : a <= b -> radians a <= radians b.
Proof. intros H. unfold radians. pose proof PI_RGT_0. nra. Qed.

Lemma radians_lt a b : a < b -> radians a < radians b.
Proof. intros H. unfold radians. pose proof PI_RGT_0. nra. Qed.

Lemma radians_180 : radians 180 = PI.
Proof. unfold radians. field. Qed.

Lemma radians_90 : radians 90 = PI / 2.
Proof. unfold radians. field. Qed.

Lemma radians_0 : radians 0 = 0.
Proof. unfold radians. field. Qed.

Lemma radians_plus a b : radians (a + b) = radians a + radians b.
Proof. unfold radians. field. Qed.

Lemma radians_minus a b : radians (a - b) = radians a - radians b.
Proof. unfold radians. field. Qed.

Lemma radians_opp a : radians (- a) = - radians a.
Proof. unfold radians. field. Qed.

(** [math.hypot] is the Euclidean norm. *)

Lemma hypot_nonneg x y : 0 <= hypot x y.
Proof. apply sqrt_pos. Qed.

Lemma hypot_sqr x y : hypot x y * hypot x y = x * x + y * y.
Proof. unfold hypot. apply sqrt_sqrt. nra. Qed.

Lemma hypot_pos x y : x <> 0 \/ y <> 0 -> 0 < hypot x y.
Proof.
  intros H. unfold hypot. apply sqrt_lt_R0.
  destruct H as [H | H]; nra.
Qed.

Lemma hypot_eq x y h : 0 <= h -> h * h = x * x + y * y -> hypot x y = h.
Proof. intros H1 H2. unfold hypot. apply sqrt_lem_1; [nra | assumption | assumption]. Qed.

(** [math.atan2] gives the polar angle of a point other than the origin. *)

Lemma sqrt_1_plus_sqr_pos x y : 0 < x ->
  sqrt (1 + (y / x)²) = hypot x y / x.
Proof.
  intros Hx. apply sqrt_lem_1.
  - unfold Rsqr. nra.
  - apply Rmult_le_pos; [apply hypot_nonneg | left; apply Rinv_0_lt_compat; lra].
  - unfold Rsqr. pose proof (hypot_sqr x y) as H.
    transitivity ((hypot x y * hypot x y) / (x * x)); [field; lra |].
    rewrite H. field. lra.
Qed.

Lemma sqrt_1_plus_sqr_neg x y : x < 0 ->
  sqrt (1 + (y / x)²) = hypot x y / - x.
Proof.
  intros Hx. apply sqrt_lem_1.
  - unfold Rsqr. nra.
  - apply Rmult_le_pos; [apply hypot_nonneg | left; apply Rinv_0_lt_compat; lra].
  - unfold Rsqr. pose proof (hypot_sqr x y) as H.
    transitivity ((hypot x y * hypot x y) / (x * x)); [field; lra |].
    rewrite H. field. lra.
Qed.

Lemma atan2_polar x y : x <> 0 \/ y <> 0 ->
  hypot x y * cos (atan2 y x) = x /\ hypot x y * sin (atan2 y x) = y.
Proof.
  intros H0. pose proof (hypot_pos x y H0) as Hh.
  unfold atan2.
  destruct (Rlt_dec 0 x) as [Hx | Hx].
  - rewrite cos_atan, sin_atan, sqrt_1_plus_sqr_pos by assumption.
    split; field; lra.
  - destruct (Rlt_dec x 0) as [Hx' | Hx'].
    + destruct (Rle_dec 0 y) as [Hy | Hy].
      * rewrite neg_cos, neg_sin, cos_atan, sin_atan, sqrt_1_plus_sqr_neg by assumption.
        split; field; lra.
      * unfold Rminus. rewrite <- (cos_period _ 1), <- (sin_period (_ + - PI) 1).
        replace (atan (y / x) + - PI + 2 * INR 1 * PI) with (atan (y / x) + PI)
          by (simpl; ring).
        rewrite neg_cos, neg_sin, cos_atan, sin_atan, sqrt_1_plus_sqr_neg by assumption.
        split; field; lra.
    + assert (x = 0) by lra. subst x.
      assert (Hy0 : y <> 0) by (destruct H0; [lra | assumption]).
      destruct (Rlt_dec 0 y) as [Hy | Hy].
      * rewrite cos_PI2, sin_PI2. split; [ring |].
        rewrite (hypot_eq 0 y y); lra.
      * destruct (Rlt_dec y 0) as [Hy' | Hy']; [| lra].
        rewrite cos_neg, sin_neg, cos_PI2, sin_PI2. split; [ring |].
        rewrite (hypot_eq 0 y (- y)); lra.
Qed.

Lemma atan2_bounds y x : - PI < atan2 y x <= PI.
Proof.
  pose proof PI_RGT_0. pose proof (atan_bound (y / x)) as Hb.
  unfold atan2.
  destruct (Rlt_dec 0 x) as [Hx | Hx]; [lra |].
  destruct (Rlt_dec x 0) as [Hx' | Hx'].
  - assert (Hinv : / x < 0) by (apply Rinv_lt_0_compat; assumption).
    destruct (Rle_dec 0 y) as [Hy | Hy].
    + assert (y / x <= 0) by (unfold Rdiv; nra).
      assert (atan (y / x) <= 0).
      { destruct (Req_dec (y / x) 0) as [E | E]; [rewrite E, atan_0; lra |].
        left. rewrite <- atan_0. apply atan_increasing. lra. }
      lra.
    + assert (0 < y / x) by (unfold Rdiv; nra).
      assert (0 < atan (y / x)) by (rewrite <- atan_0; apply atan_increasing; lra).
      lra.
  - destruct (Rlt_dec 0 y); [lra |]. destruct (Rlt_dec y 0); lra.
Qed.

Lemma atan2d_bounds y x : -180 < __atan2d y x <= 180.
Proof.
  unfold __atan2d. pose proof (atan2_bounds y x) as [H1 H2].
  apply degrees_lt in H1. apply degrees_le in H2.
  rewrite degrees_PI in H2.
  replace (degrees (- PI)) with (-180) in H1; [lra |].
  unfold degrees. field. apply PI_neq0.
Qed.

(** With a non-negative abscissa the angle stays in the right half plane. *)
Lemma atan2_right y x : 0 <= x -> - (PI / 2) <= atan2 y x <= PI / 2.
Proof.
  intros Hx. pose proof PI_RGT_0. pose proof (atan_bound (y / x)).
  unfold atan2.
  destruct (Rlt_dec 0 x); [lra |].
  destruct (Rlt_dec x 0); [lra |].
  destruct (Rlt_dec 0 y); [lra |]. destruct (Rlt_dec y 0); lra.
Qed.

Lemma sind_atan2d y x : __sind (__atan2d y x) = sin (atan2 y x).
Proof. unfold __sind, __atan2d. now rewrite radians_degrees. Qed.

Lemma cosd_atan2d y x : __cosd (__atan2d y x) = cos (atan2 y x).
Proof. unfold __cosd, __atan2d. now rewrite radians_degrees. Qed.

(** ** The Sun's distance and declination *)

Lemma sind_cosd_sqr x : __sind x * __sind x + __cosd x * __cosd x = 1.
Proof. unfold __sind, __cosd. pose proof (sin2_cos2 (radians x)) as H. unfold Rsqr in H. exact H. Qed.

Lemma sind_bound x : -1 <= __sind x <= 1.
Proof. apply SIN_bound. Qed.

Lemma cosd_bound x : -1 <= __cosd x <= 1.
Proof. apply COS_bound. Qed.

Lemma sunpos_eq d :
  -1 <= sunpos_e d <= 1 ->
  __sunpos d =
  ret (if Rge_dec (sunpos_v d + sunpos_w d) 360
       then sunpos_v d + sunpos_w d - 360 else sunpos_v d + sunpos_w d,
       hypot (sunpos_x d) (sunpos_y d)).
Proof.
  intros He. unfold __sunpos.
  fold (sunpos_M d) (sunpos_w d) (sunpos_e d).
  fold (sunpos_E d). fold (sunpos_x d).
  rewrite math_sqrt_ok by nra. rewrite bind_ret.
  fold (sunpos_y d). fold (sunpos_v d). reflexivity.
Qed.

Lemma sunpos_r d :
  -1 <= sunpos_e d <= 1 ->
  hypot (sunpos_x d) (sunpos_y d) = 1 - sunpos_e d * __cosd (sunpos_E d).
Proof.
  intros He. apply hypot_eq.
  - pose proof (cosd_bound (sunpos_E d)). nra.
  - unfold sunpos_x, sunpos_y.
    pose proof (sind_cosd_sqr (sunpos_E d)) as Hsc.
    pose proof (sqrt_sqrt (1 - sunpos_e d * sunpos_e d)) as Hs.
    assert (0 <= 1 - sunpos_e d * sunpos_e d) as H0 by nra.
    specialize (Hs H0).
    set (s := sqrt _) in *. set (S := __sind _) in *. set (C := __cosd _) in *.
    set (e := sunpos_e d) in *.
    replace (s * S * (s * S)) with ((s * s) * (S * S)) by ring.
    rewrite Hs. replace (S * S) with (1 - C * C) by lra. ring.
Qed.

Lemma sunpos_r_bounds d :
  -1 < sunpos_e d < 1 ->
  1 - Rabs (sunpos_e d) <= hypot (sunpos_x d) (sunpos_y d) <= 1 + Rabs (sunpos_e d).
Proof.
  intros He. rewrite sunpos_r by lra.
  pose proof (cosd_bound (sunpos_E d)).
  unfold Rabs. destruct (Rcase_abs (sunpos_e d)); nra.
Qed.

Lemma sunRADec_eq d lon r :
  __sunpos d = ret (lon, r) ->
  __sunRADec d =
  ret (__atan2d (radec_y d r lon) (radec_x r lon),
       __atan2d (radec_z d r lon) (hypot (radec_x r lon) (radec_y d r lon)),
       r).
Proof.
  intros H. unfold __sunRADec. rewrite H, bind_ret. reflexivity.
Qed.

Section Declination.
Variables (d r L : R).
Hypothesis Hr : 0 < r.
Hypothesis Ho : 0 < __cosd (obl_ecl d).

Lemma decl_hypot_pos : 0 < hypot (radec_x r L) (radec_y d r L).
Proof.
  apply hypot_pos. unfold radec_x, radec_y.
  destruct (Req_dec (__cosd L) 0) as [E | E].
  - right. pose proof (sind_cosd_sqr L). assert (__sind L <> 0) by nra.
    apply Rmult_integral_contrapositive_currified; [| lra].
    apply Rmult_integral_contrapositive_currified; [lra | assumption].
  - left. apply Rmult_integral_contrapositive_currified; [lra | assumption].
Qed.

Lemma decl_hypot3 :
  hypot (hypot (radec_x r L) (radec_y d r L)) (radec_z d r L) = r.
Proof.
  apply hypot_eq; [lra |]. rewrite hypot_sqr. unfold radec_x, radec_y, radec_z.
  pose proof (sind_cosd_sqr L). pose proof (sind_cosd_sqr (obl_ecl d)).
  set (sL := __sind L) in *. set (cL := __cosd L) in *.
  set (so := __sind (obl_ecl d)) in *. set (co := __cosd (obl_ecl d)) in *.
  replace (r * cL * (r * cL) + r * sL * co * (r * sL * co) + r * sL * so * (r * sL * so))
    with (r * r * (cL * cL + sL * sL * (so * so + co * co))) by ring.
  replace (so * so + co * co) with 1 by lra.
  replace (cL * cL + sL * sL * 1) with 1 by lra. ring.
Qed.

Lemma decl_sind :
  __sind (__atan2d (radec_z d r L) (hypot (radec_x r L) (radec_y d r L)))
  = __sind L * __sind (obl_ecl d).
Proof.
  rewrite sind_atan2d.
  pose proof decl_hypot_pos as Hh.
  destruct (atan2_polar (hypot (radec_x r L) (radec_y d r L)) (radec_z d r L))
    as [_ Hs]; [left; lra |].
  rewrite decl_hypot3 in Hs.
  apply (Rmult_eq_reg_l r); [| lra]. rewrite Hs. unfold radec_z. ring.
Qed.

Lemma decl_cosd :
  r * __cosd (__atan2d (radec_z d r L) (hypot (radec_x r L) (radec_y d r L)))
  = hypot (radec_x r L) (radec_y d r L).
Proof.
  rewrite cosd_atan2d.
  pose proof decl_hypot_pos as Hh.
  destruct (atan2_polar (hypot (radec_x r L) (radec_y d r L)) (radec_z d r L))
    as [Hc _]; [left; lra |].
  rewrite decl_hypot3 in Hc. exact Hc.
Qed.

(** [cos dec >= cos obl]: the declination never exceeds the obliquity. *)
Lemma decl_cosd_ge :
  __cosd (obl_ecl d)
  <= __cosd (__atan2d (radec_z d r L) (hypot (radec_x r L) (radec_y d r L))).
Proof.
  pose proof decl_cosd as Hc. pose proof decl_hypot_pos as Hh.
  assert (Hq : hypot (radec_x r L) (radec_y d r L)
               * hypot (radec_x r L) (radec_y d r L) =
               r * __cosd L * (r * __cosd L)
               + r * __sind L * __cosd (obl_ecl d)
                 * (r * __sind L * __cosd (obl_ecl d)))
    by (rewrite hypot_sqr; reflexivity).
  set (h := hypot (radec_x r L) (radec_y d r L)) in *.
  set (c := __cosd (__atan2d (radec_z d r L) h)) in *.
  set (co := __cosd (obl_ecl d)) in *.
  assert (Hsq : co * co <= c * c).
  { assert (E : (r * c) * (r * c) =
                r * r * (__cosd L * __cosd L + __sind L * __sind L * (co * co))).
    { rewrite Hc, Hq. ring. }
    pose proof (sind_cosd_sqr L) as HL.
    assert (c * c = __cosd L * __cosd L + __sind L * __sind L * (co * co)).
    { apply (Rmult_eq_reg_l (r * r)); [| nra]. rewrite <- E. ring. }
    pose proof (cosd_bound (obl_ecl d)). fold co in H0.
    assert (0 <= __cosd L * __cosd L) by nra.
    assert (co * co <= 1) by nra.
    nra. }
  assert (0 < c) by nra.
  nra.
Qed.
End Declination.

(** ** The supported span of days, and monotonicity *)

Lemma supported_date_inv y m d :
  supported_date y m d = true ->
  (1801 <= y <= 2099 /\ 1 <= m <= 12 /\ 1 <= d <= 31)%Z.
Proof.
  unfold supported_date, valid_date. intros H.
  repeat (apply andb_prop in H; destruct H as [H ?]).
  assert (days_in_month y m <= 31)%Z.
  { unfold days_in_month. repeat (destruct (_ =? _)%Z; simpl); destruct (isleap y); lia. }
  lia.
Qed.

Lemma daysSince_bounds y m d :
  (1801 <= y <= 2099 /\ 1 <= m <= 12 /\ 1 <= d <= 31)%Z ->
  (-72683 <= __daysSince2000Jan0 y m d <= 36525)%Z.
Proof. unfold __daysSince2000Jan0. intros H. Z.div_mod_to_equations. lia. Qed.

Lemma local_noon_bounds y m d lon :
  supported_date y m d = true -> supported_lon lon ->
  -73000 <= local_noon y m d lon <= 37000.
Proof.
  intros Hd Hl. apply supported_date_inv in Hd. apply daysSince_bounds in Hd.
  destruct Hd as [H1 H2]. apply IZR_le in H1, H2.
  unfold local_noon, supported_lon in *. lra.
Qed.

Lemma sunpos_e_bounds d : -73000 <= d <= 37000 -> 0.0166 < sunpos_e d < 0.0168.
Proof. unfold sunpos_e. lra. Qed.

Lemma obl_ecl_bounds d : -73000 <= d <= 37000 -> 23.42 < obl_ecl d < 23.47.
Proof. unfold obl_ecl. lra. Qed.

Lemma sunpos_w_bounds d : -73000 <= d <= 37000 -> 279.5 < sunpos_w d < 284.7.
Proof. unfold sunpos_w. lra. Qed.

Lemma cosd_pos a : -90 < a < 90 -> 0 < __cosd a.
Proof.
  intros H. unfold __cosd. pose proof PI_RGT_0.
  apply cos_gt_0; unfold radians; nra.
Qed.

Lemma sind_incr a b : -90 <= a -> a < b -> b <= 90 -> __sind a < __sind b.
Proof.
  intros Ha Hab Hb. unfold __sind. pose proof PI_RGT_0.
  apply sin_increasing_1; unfold radians; nra.
Qed.

Lemma sind_0 : __sind 0 = 0.
Proof. unfold __sind. rewrite radians_0. apply sin_0. Qed.

Lemma cosd_0 : __cosd 0 = 1.
Proof. unfold __cosd. rewrite radians_0. apply cos_0. Qed.

Lemma cosd_90 : __cosd 90 = 0.
Proof. unfold __cosd. rewrite radians_90. apply cos_PI2. Qed.

Lemma sind_90 : __sind 90 = 1.
Proof. unfold __sind. rewrite radians_90. apply sin_PI2. Qed.

Lemma sind_opp a : __sind (- a) = - __sind a.
Proof. unfold __sind. rewrite radians_opp. apply sin_neg. Qed.

Lemma cosd_opp a : __cosd (- a) = __cosd a.
Proof. unfold __cosd. rewrite radians_opp. apply cos_neg. Qed.

(** [acos] is decreasing. *)
Lemma acos_decr a b : -1 <= a -> a <= b -> b <= 1 -> acos b <= acos a.
Proof.
  intros Ha Hab Hb.
  destruct (Rle_lt_dec (acos b) (acos a)) as [H | H]; [assumption |].
  exfalso.
  pose proof (acos_bound a). pose proof (acos_bound b).
  assert (cos (acos b) < cos (acos a)) as Hc by (apply cos_decreasing_1; lra).
  rewrite !cos_acos in Hc by lra. lra.
Qed.

Lemma acos_decr_strict a b : -1 <= a -> a < b -> b <= 1 -> acos b < acos a.
Proof.
  intros Ha Hab Hb.
  destruct (Rlt_le_dec (acos b) (acos a)) as [H | H]; [assumption |].
  exfalso.
  pose proof (acos_bound a). pose proof (acos_bound b).
  assert (cos (acos b) <= cos (acos a)) as Hc by (apply cos_decr_1; lra).
  rewrite !cos_acos in Hc by lra. lra.
Qed.

Lemma acosd_range x : 0 <= degrees (acos x) <= 180.
Proof.
  pose proof (acos_bound x) as [H1 H2].
  apply degrees_le in H1, H2. rewrite degrees_0 in H1. rewrite degrees_PI in H2. lra.
Qed.

Lemma diurnal_arc_bounds c : 0 <= diurnal_arc c <= 12.
Proof.
  unfold diurnal_arc. destruct (Rge_dec c 1); [lra |].
  destruct (Rle_dec c (-1)); [lra |]. pose proof (acosd_range c). lra.
Qed.

Lemma diurnal_arc_open c : -1 < c < 1 -> 0 < diurnal_arc c < 12.
Proof.
  intros H. unfold diurnal_arc. destruct (Rge_dec c 1); [lra |].
  destruct (Rle_dec c (-1)); [lra |].
  pose proof (acos_bound_lt c H) as [H1 H2].
  apply degrees_lt in H1, H2. rewrite degrees_0 in H1. rewrite degrees_PI in H2. lra.
Qed.

Lemma diurnal_arc_open_inv c : 0 < diurnal_arc c < 12 -> -1 < c < 1.
Proof.
  unfold diurnal_arc. destruct (Rge_dec c 1); [lra |].
  destruct (Rle_dec c (-1)); [lra |]. lra.
Qed.

Lemma diurnal_arc_decr a b : a <= b -> diurnal_arc b <= diurnal_arc a.
Proof.
  intros Hab. pose proof (diurnal_arc_bounds a). pose proof (diurnal_arc_bounds b).
  unfold diurnal_arc in *.
  destruct (Rge_dec b 1); [lra |].
  destruct (Rle_dec a (-1)); [destruct (Rge_dec a 1); lra |].
  destruct (Rge_dec a 1); [lra |]. destruct (Rle_dec b (-1)); [lra |].
  assert (acos b <= acos a) as H1 by (apply acos_decr; lra).
  apply degrees_le in H1. lra.
Qed.

Lemma diurnal_arc_decr_strict a b : -1 < a -> a < b -> b < 1 ->
  diurnal_arc b < diurnal_arc a.
Proof.
  intros Ha Hab Hb. unfold diurnal_arc.
  destruct (Rge_dec b 1); [lra |]. destruct (Rge_dec a 1); [lra |].
  destruct (Rle_dec a (-1)); [lra |]. destruct (Rle_dec b (-1)); [lra |].
  assert (acos b < acos a) as H1 by (apply acos_decr_strict; lra).
  apply degrees_lt in H1. lra.
Qed.

(** The branch on [cost] of [__sunriset]. *)
Lemma sunriset_branch c :
  (if Rge_dec c 1 then ret 0
   else if Rle_dec c (-1) then ret 12
   else bind (__acosd c) (fun a => ret (a / 15)))
  = (acosd_trace c, Ok (diurnal_arc c)).
Proof.
  unfold diurnal_arc, acosd_trace. destruct (Rge_dec c 1); [reflexivity |].
  destruct (Rle_dec c (-1)); [reflexivity |].
  rewrite acosd_ok by lra. reflexivity.
Qed.

Lemma bind_ok_ret {A B} (l : list R) (a : A) (g : A -> B) :
  bind (l, Ok a) (fun x => ret (g x)) = (l, Ok (g a)).
Proof. unfold bind, ret. now rewrite app_nil_r. Qed.

Lemma acosd_trace_open c : -1 < c < 1 -> acosd_trace c = [c].
Proof.
  intros H. unfold acosd_trace. destruct (Rge_dec c 1); [lra |].
  destruct (Rle_dec c (-1)); [lra | reflexivity].
Qed.

Lemma result_bind_ok {A B} (m : M A) (f : A -> M B) a :
  result m = Ok a -> result (bind m f) = result (f a).
Proof.
  unfold result. destruct m as [l o]. simpl. intros ->. destruct (f a). reflexivity.
Qed.

Lemma result_ret {A} (a : A) : result (ret a) = Ok a.
Proof. reflexivity. Qed.

(** ** The values [__sunriset] and [__daylen] return *)

(** The Sun's position on the supported span of days. *)
Lemma sunpos_supported d :
  -73000 <= d <= 37000 ->
  exists lon r, __sunpos d = ret (lon, r) /\ 0.98 < r < 1.02.
Proof.
  intros Hd. pose proof (sunpos_e_bounds d Hd) as He.
  eexists _, _. split; [apply sunpos_eq; lra |].
  pose proof (sunpos_r_bounds d) as Hr.
  unfold Rabs in Hr. destruct (Rcase_abs (sunpos_e d)); lra.
Qed.

Lemma sunRADec_supported d :
  -73000 <= d <= 37000 ->
  exists lon sRA sdec sr,
    __sunpos d = ret (lon, sr) /\
    __sunRADec d = ret (sRA, sdec, sr) /\
    0.98 < sr < 1.02 /\
    __sind sdec = __sind lon * __sind (obl_ecl d) /\
    0 < __cosd (obl_ecl d) <= __cosd sdec.
Proof.
  intros Hd. destruct (sunpos_supported d Hd) as (lon & r & Hp & Hr).
  pose proof (obl_ecl_bounds d Hd) as Ho.
  assert (0 < __cosd (obl_ecl d)) as Hco by (apply cosd_pos; lra).
  eexists lon, _, _, r. split; [exact Hp |].
  split; [apply sunRADec_eq; exact Hp |].
  split; [exact Hr |]. split.
  - apply decl_sind; [lra | assumption].
  - split; [assumption |]. apply decl_cosd_ge; [lra | assumption].
Qed.

Lemma sunriset_value y m day lon lat altit ul :
  let d := local_noon y m day lon in
  -73000 <= d <= 37000 ->
  __cosd lat <> 0 ->
  exists slon sRA sdec sr,
    __sunpos d = ret (slon, sr) /\
    __sunRADec d = ret (sRA, sdec, sr) /\
    0.98 < sr < 1.02 /\
    __sind sdec = __sind slon * __sind (obl_ecl d) /\
    0 < __cosd (obl_ecl d) <= __cosd sdec /\
    __sunriset y m day lon lat altit ul =
    (acosd_trace (sunriset_cost lat altit ul sdec sr),
     Ok (sunriset_tsouth d lon sRA
           - diurnal_arc (sunriset_cost lat altit ul sdec sr),
         sunriset_tsouth d lon sRA
           + diurnal_arc (sunriset_cost lat altit ul sdec sr))).
Proof.
  intros d Hd Hlat.
  destruct (sunRADec_supported d Hd) as (slon & sRA & sdec & sr & Hp & Hrd & Hr & Hs & Hc).
  exists slon, sRA, sdec, sr. repeat (split; [assumption |]).
  unfold __sunriset. cbv zeta. fold (local_noon y m day lon). fold d.
  rewrite Hrd, bind_ret. rewrite fdiv_ok by lra. rewrite bind_ret.
  rewrite fdiv_ok by (apply Rmult_integral_contrapositive_currified; lra).
  rewrite bind_ret.
  rewrite sunriset_branch.
  apply (bind_ok_ret _ _ (fun t => (sunriset_tsouth d lon sRA - t,
                                    sunriset_tsouth d lon sRA + t))).
Qed.

(** The branch on [cost] of [__daylen]. *)
Lemma daylen_branch c :
  (if Rge_dec c 1 then ret 0
   else if Rle_dec c (-1) then ret 24
   else bind (__acosd c) (fun a => ret (2 / 15 * a)))
  = (acosd_trace c, Ok (daylen_of_cost c)).
Proof.
  unfold daylen_of_cost, acosd_trace. destruct (Rge_dec c 1); [reflexivity |].
  destruct (Rle_dec c (-1)); [reflexivity |].
  rewrite acosd_ok by lra. reflexivity.
Qed.

Lemma daylen_of_cost_bounds c : 0 <= daylen_of_cost c <= 24.
Proof.
  unfold daylen_of_cost. destruct (Rge_dec c 1); [lra |].
  destruct (Rle_dec c (-1)); [lra |]. pose proof (acosd_range c). lra.
Qed.

Lemma daylen_value y m day lon lat altit ul :
  let d := local_noon y m day lon in
  -73000 <= d <= 37000 ->
  __cosd lat <> 0 ->
  exists slon sr,
    __sunpos d = ret (slon, sr) /\
    0.98 < sr < 1.02 /\
    __daylen y m day lon lat altit ul =
    (acosd_trace (daylen_cost d lat altit ul slon sr),
     Ok (daylen_of_cost (daylen_cost d lat altit ul slon sr))).
Proof.
  intros d Hd Hlat.
  destruct (sunpos_supported d Hd) as (slon & sr & Hp & Hr).
  exists slon, sr. repeat (split; [assumption |]).
  pose proof (obl_ecl_bounds d Hd) as Ho.
  assert (0 < __cosd (obl_ecl d)) as Hco by (apply cosd_pos; lra).
  set (s := __sind (obl_ecl d) * __sind slon).
  assert (Hs : s * s < 1).
  { unfold s. pose proof (sind_cosd_sqr (obl_ecl d)). pose proof (sind_bound slon).
    assert (__sind (obl_ecl d) * __sind (obl_ecl d) < 1) by nra.
    assert (__sind slon * __sind slon <= 1) by nra.
    assert (0 <= __sind (obl_ecl d) * __sind (obl_ecl d)) by nra.
    replace (__sind (obl_ecl d) * __sind slon * (__sind (obl_ecl d) * __sind slon))
      with ((__sind (obl_ecl d) * __sind (obl_ecl d)) * (__sind slon * __sind slon)) by ring.
    nra. }
  unfold __daylen. cbv zeta. fold (local_noon y m day lon). fold d.
  fold (obl_ecl d).
  rewrite Hp, bind_ret. fold s.
  rewrite math_sqrt_ok by lra. rewrite bind_ret.
  rewrite fdiv_ok by lra. rewrite bind_ret.
  assert (0 < sqrt (1 - s * s)) by (apply sqrt_lt_R0; lra).
  rewrite fdiv_ok by (apply Rmult_integral_contrapositive_currified; lra).
  rewrite bind_ret.
  rewrite daylen_branch. reflexivity.
Qed.

(** ** Bounds on the equator *)

Lemma sradius_bounds sr : 0.98 < sr < 1.02 -> 0.26 < 0.2666 / sr < 0.28.
Proof.
  intros H. assert (E : 0.2666 / sr * sr = 0.2666) by (field; lra).
  set (q := 0.2666 / sr) in *. nra.
Qed.

Lemma sind_neg30 : __sind (-30) = - (1 / 2).
Proof.
  unfold __sind. replace (radians (-30)) with (- (PI / 6)) by (unfold radians; field).
  rewrite sin_neg, sin_PI6. reflexivity.
Qed.

Lemma cosd_30 : __cosd 30 = sqrt 3 / 2.
Proof.
  unfold __cosd. replace (radians 30) with (PI / 6) by (unfold radians; field).
  apply cos_PI6.
Qed.

Lemma sqrt3_gt : 1.7 < sqrt 3.
Proof.
  rewrite <- (sqrt_square 1.7) by lra. apply sqrt_lt_1; lra.
Qed.

Lemma cosd_decr a b : 0 <= a -> a < b -> b <= 180 -> __cosd b < __cosd a.
Proof.
  intros Ha Hab Hb. unfold __cosd. pose proof PI_RGT_0.
  apply cos_decreasing_1; unfold radians; nra.
Qed.

Lemma cosd_obl_gt d : -73000 <= d <= 37000 -> 0.85 < __cosd (obl_ecl d).
Proof.
  intros Hd. pose proof (obl_ecl_bounds d Hd).
  assert (__cosd 30 < __cosd (obl_ecl d)) by (apply cosd_decr; lra).
  rewrite cosd_30 in *. pose proof sqrt3_gt. lra.
Qed.

(** [cost] is increasing in the altitude when [cos lat * cos dec] is positive. *)
Lemma cost_incr A B a1 a2 :
  0 < B -> -90 <= a1 -> a1 < a2 -> a2 <= 90 ->
  (__sind a1 - A) / B < (__sind a2 - A) / B.
Proof.
  intros HB H1 H12 H2. pose proof (sind_incr a1 a2 H1 H12 H2).
  apply Rmult_lt_compat_r; [apply Rinv_0_lt_compat; assumption | lra].
Qed.

(** On the equator every altitude between -30 and 0 degrees is crossed. *)
Lemma equator_cost altit s c :
  -30 < altit < 0 -> 0.85 < c ->
  -1 < (__sind altit - __sind 0 * s) / (__cosd 0 * c) < 0.
Proof.
  intros Ha Hc. rewrite sind_0, cosd_0.
  assert (H1 : - (1 / 2) < __sind altit).
  { rewrite <- sind_neg30. apply sind_incr; lra. }
  assert (H2 : __sind altit < 0).
  { rewrite <- sind_0. apply sind_incr; lra. }
  assert (E : (__sind altit - 0 * s) / (1 * c) * c = __sind altit) by (field; lra).
  set (q := (__sind altit - 0 * s) / (1 * c)) in *. nra.
Qed.

(** ** Rise and set times *)

Lemma tsouth_bounds d lon sRA : 0 < sunriset_tsouth d lon sRA <= 24.
Proof.
  unfold sunriset_tsouth.
  pose proof (rev180_range (__revolution (__GMST0 d + 180 + lon) - sRA)). lra.
Qed.






(** ** The order of the dawns *)

(** The four rise/set macros share the transit hour and differ by the
    altitude alone; the deeper the altitude, the smaller [cost]. *)
Lemma four_costs y m day lon lat :
  supported_date y m day = true -> supported_lon lon -> 0 < __cosd lat ->
  exists ts sdec sr,
    0.98 < sr < 1.02 /\ 0.85 < __cosd sdec /\
    let cs := sunriset_cost lat (-35 / 60) 1 sdec sr in
    let cc := sunriset_cost lat (-6) 0 sdec sr in
    let cn := sunriset_cost lat (-12) 0 sdec sr in
    let ca := sunriset_cost lat (-18) 0 sdec sr in
    result (sunRiseSet y m day lon lat)
      = Ok (ts - diurnal_arc cs, ts + diurnal_arc cs) /\
    result (civilTwilight y m day lon lat)
      = Ok (ts - diurnal_arc cc, ts + diurnal_arc cc) /\
    result (nauticalTwilight y m day lon lat)
      = Ok (ts - diurnal_arc cn, ts + diurnal_arc cn) /\
    result (astronomicalTwilight y m day lon lat)
      = Ok (ts - diurnal_arc ca, ts + diurnal_arc ca) /\
    ca < cn /\ cn < cc /\ cc < cs.
Proof.
  intros Hd Hl Hlat.
  pose proof (local_noon_bounds y m day lon Hd Hl) as Hn.
  assert (Hlat' : __cosd lat <> 0) by lra.
  set (d := local_noon y m day lon) in *.
  destruct (sunRADec_supported d Hn) as (slon & sRA & sdec & sr & Hp & Hrd & Hr & Hs & Hc).
  pose proof (cosd_obl_gt d Hn) as Ho.
  exists (sunriset_tsouth d lon sRA), sdec, sr.
  split; [exact Hr |]. split; [lra |]. cbv zeta.
  assert (Hval : forall altit ul,
    result (__sunriset y m day lon lat altit ul) =
    Ok (sunriset_tsouth d lon sRA - diurnal_arc (sunriset_cost lat altit ul sdec sr),
        sunriset_tsouth d lon sRA + diurnal_arc (sunriset_cost lat altit ul sdec sr))).
  { intros altit ul.
    destruct (sunriset_value y m day lon lat altit ul Hn Hlat')
      as (slon' & sRA' & sdec' & sr' & _ & Hrd' & _ & _ & _ & Hres).
    fold d in Hrd'. rewrite Hrd in Hrd'. injection Hrd' as <- <- <-.
    rewrite Hres. reflexivity. }
  repeat (split; [apply Hval |]).
  pose proof (sradius_bounds sr Hr) as Hsr.
  assert (HB : 0 < __cosd lat * __cosd sdec) by (apply Rmult_lt_0_compat; lra).
  unfold sunriset_cost, truthy. simpl.
  repeat split; apply cost_incr; lra.
Qed.

Lemma result_inj {A} (m : M A) (a b : A) : result m = Ok a -> result m = Ok b -> a = b.
Proof. intros H1 H2. rewrite H1 in H2. now injection H2. Qed.

(** Claim C3, amended.  For every supported date, longitude in [-180, 180]
    and latitude strictly between -90 and 90 at which the four macros
    yield a normal crossing, the dawns come in the order astronomical
    twilight <= nautical twilight <= civil twilight <= sunrise: the deeper
    the threshold, the earlier the dawn. *)
Theorem twilight_dawn_order y m day lon lat :
  supported_date y m day = true -> supported_lon lon -> -90 < lat < 90 ->
  normal_crossing (sunRiseSet y m day lon lat) ->
  normal_crossing (civilTwilight y m day lon lat) ->
  normal_crossing (nauticalTwilight y m day lon lat) ->
  normal_crossing (astronomicalTwilight y m day lon lat) ->
  forall rs rc rn ra,
    dawn (sunRiseSet y m day lon lat) rs ->
    dawn (civilTwilight y m day lon lat) rc ->
    dawn (nauticalTwilight y m day lon lat) rn ->
    dawn (astronomicalTwilight y m day lon lat) ra ->
    ra <= rn /\ rn <= rc /\ rc <= rs.
Proof.
  intros Hd Hl Hlat _ _ _ _ rs rc rn ra [ss Hs] [sc Hc] [sn Hn] [sa Ha].
  destruct (four_costs y m day lon lat Hd Hl (cosd_pos lat Hlat))
    as (ts & sdec & sr & _ & _ & Hs' & Hc' & Hn' & Ha' & Han & Hnc & Hcs).
  pose proof (result_inj _ _ _ Hs Hs') as Es. injection Es as -> _.
  pose proof (result_inj _ _ _ Hc Hc') as Ec. injection Ec as -> _.
  pose proof (result_inj _ _ _ Hn Hn') as En. injection En as -> _.
  pose proof (result_inj _ _ _ Ha Ha') as Ea. injection Ea as -> _.
  apply Rlt_le in Han, Hnc, Hcs.
  apply diurnal_arc_decr in Han, Hnc, Hcs. lra.
Qed.

(** On the equator the four altitudes are crossed on every supported day. *)
Lemma equator_crossings y m day lon :
  supported_date y m day = true -> supported_lon lon ->
  normal_crossing (sunRiseSet y m day lon 0) /\
  normal_crossing (civilTwilight y m day lon 0) /\
  normal_crossing (nauticalTwilight y m day lon 0) /\
  normal_crossing (astronomicalTwilight y m day lon 0) /\
  exists rs rc rn ra,
    dawn (sunRiseSet y m day lon 0) rs /\
    dawn (civilTwilight y m day lon 0) rc /\
    dawn (nauticalTwilight y m day lon 0) rn /\
    dawn (astronomicalTwilight y m day lon 0) ra /\
    ra < rn /\ rn < rc /\ rc < rs.
Proof.
  intros Hd Hl.
  assert (H0 : 0 < __cosd 0) by (rewrite cosd_0; lra).
  destruct (four_costs y m day lon 0 Hd Hl H0)
    as (ts & sdec & sr & Hr & Hcd & Hs & Hc & Hn & Ha & Han & Hnc & Hcs).
  pose proof (sradius_bounds sr Hr) as Hsr.
  set (cs := sunriset_cost 0 (-35 / 60) 1 sdec sr) in *.
  set (cc := sunriset_cost 0 (-6) 0 sdec sr) in *.
  set (cn := sunriset_cost 0 (-12) 0 sdec sr) in *.
  set (ca := sunriset_cost 0 (-18) 0 sdec sr) in *.
  assert (Bs : -1 < cs < 0) by (apply equator_cost; [simpl; lra | assumption]).
  assert (Bc : -1 < cc < 0) by (apply equator_cost; [simpl; lra | assumption]).
  assert (Bn : -1 < cn < 0) by (apply equator_cost; [simpl; lra | assumption]).
  assert (Ba : -1 < ca < 0) by (apply equator_cost; [simpl; lra | assumption]).
  assert (Hnc' : forall c, -1 < c < 0 ->
            0 < (ts + diurnal_arc c - (ts - diurnal_arc c)) / 2 < 12).
  { intros c Hc0. pose proof (diurnal_arc_open c). lra. }
  split; [eexists _, _; split; [exact Hs | apply Hnc'; assumption] |].
  split; [eexists _, _; split; [exact Hc | apply Hnc'; assumption] |].
  split; [eexists _, _; split; [exact Hn | apply Hnc'; assumption] |].
  split; [eexists _, _; split; [exact Ha | apply Hnc'; assumption] |].
  eexists _, _, _, _.
  split; [eexists; exact Hs |]. split; [eexists; exact Hc |].
  split; [eexists; exact Hn |]. split; [eexists; exact Ha |].
  pose proof (diurnal_arc_decr_strict ca cn). pose proof (diurnal_arc_decr_strict cn cc).
  pose proof (diurnal_arc_decr_strict cc cs). lra.
Qed.

Lemma twilight_dawn_order_witness :
  supported_date 2000 1 1 = true /\
  supported_lon 0 /\
  -90 < 0 < 90 /\
  normal_crossing (sunRiseSet 2000 1 1 0 0) /\
  normal_crossing (civilTwilight 2000 1 1 0 0) /\
  normal_crossing (nauticalTwilight 2000 1 1 0 0) /\
  normal_crossing (astronomicalTwilight 2000 1 1 0 0) /\
  exists rs rc rn ra,
    dawn (sunRiseSet 2000 1 1 0 0) rs /\
    dawn (civilTwilight 2000 1 1 0 0) rc /\
    dawn (nauticalTwilight 2000 1 1 0 0) rn /\
    dawn (astronomicalTwilight 2000 1 1 0 0) ra /\
    ra <= rn /\ rn <= rc /\ rc <= rs.
Proof.
  assert (Hl : supported_lon 0) by (unfold supported_lon; lra).
  destruct (equator_crossings 2000 1 1 0 eq_refl Hl)
    as (H1 & H2 & H3 & H4 & rs & rc & rn & ra & D1 & D2 & D3 & D4 & _).
  split; [reflexivity |]. split; [assumption |]. split; [lra |].
  repeat (split; [assumption |]).
  exists rs, rc, rn, ra. repeat (split; [assumption |]).
  apply (twilight_dawn_order 2000 1 1 0 0 eq_refl Hl); [lra | assumption ..].
Defined.

(** Claim C3 as stated fails: on the equator at longitude 0 on 2000-01-01
    the four macros yield a normal crossing, and civil dawn comes strictly
    after nautical dawn. *)
Lemma twilight_order_as_claimed_fails :
  normal_crossing (sunRiseSet 2000 1 1 0 0) /\
  normal_crossing (civilTwilight 2000 1 1 0 0) /\
  normal_crossing (nauticalTwilight 2000 1 1 0 0) /\
  normal_crossing (astronomicalTwilight 2000 1 1 0 0) /\
  exists rc rn,
    dawn (civilTwilight 2000 1 1 0 0) rc /\
    dawn (nauticalTwilight 2000 1 1 0 0) rn /\
    ~ rc <= rn.
Proof.
  assert (Hl : supported_lon 0) by (unfold supported_lon; lra).
  destruct (equator_crossings 2000 1 1 0 eq_refl Hl)
    as (H1 & H2 & H3 & H4 & rs & rc & rn & ra & D1 & D2 & D3 & D4 & O).
  repeat (split; [assumption |]).
  exists rc, rn. repeat (split; [assumption |]). lra.
Qed.

(** ** Day length, the domain of [__acosd], and the angle reductions *)

(** Claim C6.  For every supported date, longitude in [-180, 180] and
    latitude with [cos lat <> 0], whatever the altitude and the limb flag
    (hence for [dayLength] and the three twilight lengths), [__daylen]
    returns 0 when its [cost] is at least 1, 24 when it is at most -1, and
    [2/15 * arccos cost] (in degrees) otherwise; the value returned lies
    in [0, 24]. *)
Theorem daylen_cases y m day lon lat altit ul :
  supported_date y m day = true -> supported_lon lon -> __cosd lat <> 0 ->
  exists slon sr v,
    __sunpos (local_noon y m day lon) = ret (slon, sr) /\
    result (__daylen y m day lon lat altit ul) = Ok v /\
    let cost := daylen_cost (local_noon y m day lon) lat altit ul slon sr in
    (cost >= 1 -> v = 0) /\
    (cost <= -1 -> v = 24) /\
    (-1 < cost < 1 -> v = 2 / 15 * degrees (acos cost)) /\
    0 <= v <= 24.
Proof.
  intros Hd Hl Hlat.
  pose proof (local_noon_bounds y m day lon Hd Hl) as Hn.
  destruct (daylen_value y m day lon lat altit ul Hn Hlat) as (slon & sr & Hp & _ & Hres).
  eexists slon, sr, _. split; [exact Hp |].
  split; [rewrite Hres; reflexivity |]. cbv zeta.
  set (cost := daylen_cost _ _ _ _ _ _).
  pose proof (daylen_of_cost_bounds cost) as Hb.
  unfold daylen_of_cost in *.
  destruct (Rge_dec cost 1); [repeat split; intros; lra |].
  destruct (Rle_dec cost (-1)); repeat split; intros; lra.
Qed.

Lemma daylen_cases_witness :
  supported_date 2008 10 31 = true /\
  supported_lon (-3.191528) /\
  __cosd 55.946124 <> 0 /\
  exists v, result (dayLength 2008 10 31 (-3.191528) 55.946124) = Ok v
            /\ 0 <= v <= 24.
Proof.
  assert (Hd : supported_date 2008 10 31 = true) by reflexivity.
  assert (Hl : supported_lon (-3.191528)) by (unfold supported_lon; lra).
  assert (Hc : __cosd 55.946124 <> 0) by (apply Rgt_not_eq, cosd_pos; lra).
  repeat (split; [assumption |]).
  destruct (daylen_cases 2008 10 31 (-3.191528) 55.946124 (-35 / 60) 1 Hd Hl Hc)
    as (slon & sr & v & _ & H & _ & _ & _ & Hv).
  exists v. split; [exact H | exact Hv].
Defined.

(** Claim C5.  For every input, of [__sunriset] and of [__daylen] alike,
    every argument handed to [__acosd] lies strictly between -1 and 1,
    and the [ValueError] of [math.acos] is never raised. *)
Theorem acosd_argument_in_domain y m day lon lat altit ul :
  (Forall (fun x => -1 < x < 1) (acosd_args (__sunriset y m day lon lat altit ul)) /\
   result (__sunriset y m day lon lat altit ul) <> Raise (ValueError "acos")) /\
  (Forall (fun x => -1 < x < 1) (acosd_args (__daylen y m day lon lat altit ul)) /\
   result (__daylen y m day lon lat altit ul) <> Raise (ValueError "acos")).
Proof.
  split; [apply acos_safe_sunriset | apply acos_safe_daylen].
Qed.

(** [__acosd] is called indeed: on the equator, civil twilight calls it once. *)
Lemma acosd_called_on_equator :
  exists c, acosd_args (civilTwilight 2000 1 1 0 0) = [c] /\ -1 < c < 1.
Proof.
  assert (Hn : -73000 <= local_noon 2000 1 1 0 <= 37000).
  { apply local_noon_bounds; [reflexivity | unfold supported_lon; lra]. }
  assert (H0 : __cosd 0 <> 0) by (rewrite cosd_0; lra).
  destruct (sunriset_value 2000 1 1 0 0 (-6) 0 Hn H0)
    as (slon & sRA & sdec & sr & _ & _ & Hr & _ & Hc & Hres).
  pose proof (cosd_obl_gt _ Hn) as Ho.
  assert (B : -1 < sunriset_cost 0 (-6) 0 sdec sr < 0).
  { apply equator_cost; [simpl; lra | lra]. }
  exists (sunriset_cost 0 (-6) 0 sdec sr). split; [| lra].
  unfold civilTwilight. rewrite Hres. unfold acosd_args. simpl.
  apply acosd_trace_open. lra.
Qed.

(** Claim C7.  For every real [x] and integer [k], [__revolution x] lies
    in [0, 360), negative [x] included, and
    [__revolution (x + 360 k) = __revolution x]. *)
Theorem revolution_reduces x (k : Z) :
  0 <= __revolution x < 360 /\ __revolution (x + 360 * IZR k) = __revolution x.
Proof. split; [apply revolution_range | apply revolution_periodic]. Qed.

(** Claim C2, amended.  For every real [x] and integer [k], [__rev180 x]
    lies in [-180, 180), closed at -180 and open at 180, and
    [__rev180 (x + 360 k) = __rev180 x]. *)
Theorem rev180_reduces x (k : Z) :
  -180 <= __rev180 x < 180 /\ __rev180 (x + 360 * IZR k) = __rev180 x.
Proof. split; [apply rev180_range | apply rev180_periodic]. Qed.

(** Claim C2 as stated fails: [__rev180 180 = -180], outside (-180, 180]. *)
Lemma rev180_at_180 : __rev180 180 = -180 /\ ~ (-180 < __rev180 180 <= 180).
Proof. rewrite rev180_180. split; [reflexivity | lra]. Qed.

(** *** The true longitude *)
Lemma revolution_small x : 0 <= x < 360 -> __revolution x = x.
Proof. intros H. unfold __revolution. rewrite (floor_unique _ 0); lra. Qed.

Lemma revolution_second x : 360 <= x < 720 -> __revolution x = x - 360.
Proof. intros H. unfold __revolution. rewrite (floor_unique _ 1); lra. Qed.

Lemma spec_sunEclipticPosition_eq d :
  -1 <= sunpos_e d <= 1 ->
  spec_sunEclipticPosition d =
  ret (__revolution (sunpos_v d + sunpos_w d), hypot (sunpos_x d) (sunpos_y d)).
Proof.
  intros He. unfold spec_sunEclipticPosition.
  fold (sunpos_M d) (sunpos_w d) (sunpos_e d).
  fold (sunpos_E d). fold (sunpos_x d).
  rewrite math_sqrt_ok by nra. rewrite bind_ret.
  fold (sunpos_y d). fold (sunpos_v d). reflexivity.
Qed.

(** Claim C8, amended.  For every day count [d] whose argument of
    perihelion [w] satisfies [180 <= w < 540] (every supported date is
    such), [__sunpos] agrees with the specification: its true longitude is
    the reduction to [0, 360) of [v + w], and lies in [0, 360). *)
Theorem sunpos_true_longitude d :
  180 <= sunpos_w d < 540 ->
  __sunpos d = spec_sunEclipticPosition d /\
  exists lon r,
    __sunpos d = ret (lon, r) /\
    lon = __revolution (sunpos_v d + sunpos_w d) /\
    0 <= lon < 360.
Proof.
  intros Hw.
  assert (He : -1 <= sunpos_e d <= 1) by (unfold sunpos_w, sunpos_e in *; lra).
  pose proof (atan2d_bounds (sunpos_y d) (sunpos_x d)) as Hv. fold (sunpos_v d) in Hv.
  rewrite sunpos_eq, spec_sunEclipticPosition_eq by assumption.
  assert (E : (if Rge_dec (sunpos_v d + sunpos_w d) 360
               then sunpos_v d + sunpos_w d - 360 else sunpos_v d + sunpos_w d)
              = __revolution (sunpos_v d + sunpos_w d)).
  { destruct (Rge_dec (sunpos_v d + sunpos_w d) 360).
    - rewrite revolution_second; lra.
    - rewrite revolution_small; lra. }
  rewrite E. split; [reflexivity |].
  eexists _, _. split; [reflexivity |]. split; [reflexivity |].
  apply revolution_range.
Qed.

Lemma sunpos_true_longitude_witness :
  180 <= sunpos_w 0 < 540 /\
  __sunpos 0 = spec_sunEclipticPosition 0 /\
  exists lon r, __sunpos 0 = ret (lon, r) /\ 0 <= lon < 360.
Proof.
  assert (Hw : 180 <= sunpos_w 0 < 540) by (unfold sunpos_w; lra).
  split; [exact Hw |].
  destruct (sunpos_true_longitude 0 Hw) as (H1 & lon & r & H2 & _ & H3).
  split; [exact H1 |]. exists lon, r. split; assumption.
Defined.

(** Claim C8 as stated fails: at [d = 20000000] the longitude [__sunpos]
    returns, [v + w - 360], is at least 360. *)
Lemma sunpos_longitude_not_reduced :
  exists lon r, __sunpos 20000000 = ret (lon, r) /\ ~ (0 <= lon < 360).
Proof.
  assert (He : -1 <= sunpos_e 20000000 <= 1) by (unfold sunpos_e; lra).
  pose proof (atan2d_bounds (sunpos_y 20000000) (sunpos_x 20000000)) as Hv.
  fold (sunpos_v 20000000) in Hv.
  eexists _, _. split; [apply sunpos_eq; assumption |].
  assert (Hw : sunpos_w 20000000 > 1200) by (unfold sunpos_w; lra).
  destruct (Rge_dec _ 360); lra.
Qed.

(** ** Solar flux *)

Lemma julian_total y m d :
  (1 <= m <= 12)%Z -> exists n, __julian y m d = Some n.
Proof.
  intros Hm. unfold __julian.
  assert (Hc : (m = 1 \/ m = 2 \/ m = 3 \/ m = 4 \/ m = 5 \/ m = 6 \/ m = 7
               \/ m = 8 \/ m = 9 \/ m = 10 \/ m = 11 \/ m = 12)%Z) by lia.
  destruct (isleap y);
    repeat (destruct Hc as [-> | Hc]; [eexists; reflexivity |]);
    subst m; eexists; reflexivity.
Qed.

Lemma solcons_total a : exists c, __solcons a = ret c.
Proof.
  unfold __solcons. eexists. apply fdiv_ok.
  pose proof (SIN_bound a). pose proof (COS_bound a).
  pose proof (COS_bound (2 * a)). pose proof (SIN_bound (3 * a)).
  pose proof (COS_bound (4 * a)).
  apply pow_nonzero. lra.
Qed.

Lemma equation_of_time_total y m d lat :
  (1 <= m <= 12)%Z ->
  exists fEot fR0r d1 d2, __equation_of_time y m d lat = ret (fEot, fR0r, (d1, d2)).
Proof.
  intros Hm. destruct (julian_total y m d Hm) as [n Hn].
  unfold __equation_of_time. rewrite Hn, bind_ret.
  destruct (solcons_total (IZR n * (2 * PI / (if isleap y then 366 else 365)))) as [c Hc].
  rewrite Hc, bind_ret. eexists _, _, _, _. reflexivity.
Qed.

(** Claim C10.  For every latitude and every date with a month from 1 to
    12, [__get_max_solar_flux] returns a value [v >= 0]; [v = 0] whenever
    the declination-derived flux [(fDeclsc1 + fDeclsc2) * fR0r] is
    negative, and whenever that flux times the quartic attenuation
    polynomial is negative. *)
Theorem max_solar_flux_nonneg lat y m d :
  (1 <= m <= 12)%Z ->
  exists fEot fR0r d1 d2 v,
    __equation_of_time y m d lat = ret (fEot, fR0r, (d1, d2)) /\
    result (__get_max_solar_flux lat y m d) = Ok v /\
    0 <= v /\
    let fSF := (d1 + d2) * fR0r in
    (fSF < 0 -> v = 0) /\
    (fSF * attenuation fSF < 0 -> v = 0).
Proof.
  intros Hm.
  destruct (equation_of_time_total y m d lat Hm) as (fEot & fR0r & d1 & d2 & He).
  eexists fEot, fR0r, d1, d2, _. split; [exact He |].
  unfold __get_max_solar_flux. rewrite He, bind_ret. simpl fst. simpl snd.
  split; [reflexivity |]. cbv zeta.
  set (fSF := (d1 + d2) * fR0r).
  destruct (Rlt_dec fSF 0) as [Hneg | Hpos].
  - rewrite Rmult_0_r. destruct (Rlt_dec 0 0); [lra |].
    repeat split; intros; lra.
  - destruct (Rlt_dec (fSF * attenuation fSF) 0); repeat split; intros; lra.
Qed.

Lemma max_solar_flux_nonneg_witness :
  (1 <= 1 <= 12)%Z /\
  exists v, result (__get_max_solar_flux 46.2 2004 1 30) = Ok v /\ 0 <= v.
Proof.
  assert (Hm : (1 <= 1 <= 12)%Z) by lia.
  split; [exact Hm |].
  destruct (max_solar_flux_nonneg 46.2 2004 1 30 Hm)
    as (fEot & fR0r & d1 & d2 & v & _ & H & Hv & _).
  exists v. split; assumption.
Defined.


(** ** Solar altitude *)

Lemma PI_gt_3 : 3 < PI.
Proof. pose proof PI2_3_2. lra. Qed.

Lemma sind_plus a b : __sind (a + b) = __sind a * __cosd b + __cosd a * __sind b.
Proof. unfold __sind, __cosd. rewrite radians_plus. apply sin_plus. Qed.

Lemma sind_minus_360 a : __sind (a - 360) = __sind a.
Proof.
  unfold __sind. rewrite <- (sin_period (radians (a - 360)) 1).
  f_equal. unfold radians. simpl. field.
Qed.

Lemma cosd_minus_360 a : __cosd (a - 360) = __cosd a.
Proof.
  unfold __cosd. rewrite <- (cos_period (radians (a - 360)) 1).
  f_equal. unfold radians. simpl. field.
Qed.

Lemma cosd_minus_180 a : __cosd a = - __cosd (a - 180).
Proof.
  unfold __cosd. rewrite <- neg_cos. f_equal. unfold radians. field.
Qed.

Lemma sind_minus_180 a : __sind a = - __sind (a - 180).
Proof.
  unfold __sind. rewrite <- neg_sin. f_equal. unfold radians. field.
Qed.

Lemma cosd_small a : -30 < a < 30 -> 0.85 < __cosd a.
Proof.
  intros H. pose proof sqrt3_gt.
  destruct (Rle_dec 0 a).
  - destruct (Req_dec a 0) as [-> | Hne]; [rewrite cosd_0; lra |].
    assert (__cosd 30 < __cosd a) by (apply cosd_decr; lra).
    rewrite cosd_30 in *. lra.
  - rewrite <- cosd_opp.
    assert (__cosd 30 < __cosd (- a)) by (apply cosd_decr; lra).
    rewrite cosd_30 in *. lra.
Qed.

Lemma sind_small a : -30 < a < 30 -> - (1 / 2) < __sind a < 1 / 2.
Proof.
  intros H. split.
  - rewrite <- sind_neg30. apply sind_incr; lra.
  - replace (1 / 2) with (- __sind (-30)) by (rewrite sind_neg30; lra).
    rewrite <- sind_opp. replace (- -30) with 30 by lra. apply sind_incr; lra.
Qed.

(** In the fourth quadrant, between 270 and 300 degrees. *)
Lemma fourth_quadrant w : 270 < w < 300 -> 0 < __cosd w < 1 / 2 /\ __sind w < - 0.85.
Proof.
  intros H. pose proof sqrt3_gt.
  rewrite <- (cosd_minus_360 w), <- (sind_minus_360 w).
  rewrite <- (cosd_opp (w - 360)).
  replace (__sind (w - 360)) with (- __sind (- (w - 360)))
    by (rewrite sind_opp; ring).
  set (u := - (w - 360)). assert (Hu : 60 < u < 90) by (unfold u; lra).
  assert (__cosd 90 < __cosd u) by (apply cosd_decr; lra).
  assert (__cosd u < __cosd 60) by (apply cosd_decr; lra).
  assert (__sind 60 < __sind u) by (apply sind_incr; lra).
  rewrite cosd_90 in *.
  assert (E1 : __cosd 60 = 1 / 2).
  { unfold __cosd. replace (radians 60) with (PI / 3) by (unfold radians; field).
    apply cos_PI3. }
  assert (E2 : __sind 60 = sqrt 3 / 2).
  { unfold __sind. replace (radians 60) with (PI / 3) by (unfold radians; field).
    apply sin_PI3. }
  rewrite E1, E2 in *. lra.
Qed.

(** The eccentric anomaly stays within 1.1 degrees of the mean anomaly. *)
Lemma sunpos_E_near_M d :
  -73000 <= d <= 37000 -> -1.1 < sunpos_E d - sunpos_M d < 1.1.
Proof.
  intros Hd. pose proof (sunpos_e_bounds d Hd) as He.
  unfold sunpos_E.
  pose proof (sind_bound (sunpos_M d)) as Hs. pose proof (cosd_bound (sunpos_M d)) as Hc.
  pose proof PI_gt_3 as Hpi.
  assert (Hdeg : 0 < degrees (sunpos_e d) < 1.01).
  { unfold degrees.
    assert (E : sunpos_e d * 180 / PI * PI = sunpos_e d * 180) by (field; lra).
    set (q := sunpos_e d * 180 / PI) in *. nra. }
  set (A := degrees (sunpos_e d)) in *. set (S := __sind (sunpos_M d)) in *.
  set (C := __cosd (sunpos_M d)) in *. set (e := sunpos_e d) in *.
  assert (HC : 0.98 < 1 + e * C < 1.02) by nra.
  set (K := 1 + e * C) in *.
  assert (HAK : 0 < A * K < 1.04) by nra.
  replace (sunpos_M d + A * S * K - sunpos_M d) with ((A * K) * S) by ring.
  set (P := A * K) in *. nra.
Qed.

(** Around aphelion the Sun's true longitude has a positive sine. *)
Lemma sind_true_longitude_pos d :
  -73000 <= d <= 37000 -> 170 < sunpos_M d < 190 ->
  0 < __sind (sunpos_v d + sunpos_w d).
Proof.
  intros Hd HM. pose proof (sunpos_e_bounds d Hd) as He.
  pose proof (sunpos_w_bounds d Hd) as Hw.
  pose proof (sunpos_E_near_M d Hd) as HE.
  assert (HE' : -30 < sunpos_E d - 180 < 30) by lra.
  pose proof (cosd_small _ HE') as Hc. pose proof (sind_small _ HE') as Hs.
  assert (HcE : __cosd (sunpos_E d) < -0.85) by (rewrite cosd_minus_180; lra).
  assert (HsE : - (1 / 2) < __sind (sunpos_E d) < 1 / 2) by (rewrite sind_minus_180; lra).
  destruct (fourth_quadrant (sunpos_w d)) as [Hcw Hsw]; [lra |].
  assert (Hr : 0 < hypot (sunpos_x d) (sunpos_y d)).
  { pose proof (sunpos_r_bounds d) as Hr. unfold Rabs in Hr.
    destruct (Rcase_abs (sunpos_e d)); lra. }
  destruct (atan2_polar (sunpos_x d) (sunpos_y d)) as [Px Py].
  { left. unfold sunpos_x. lra. }
  rewrite <- cosd_atan2d in Px. rewrite <- sind_atan2d in Py.
  fold (sunpos_v d) in Px, Py.
  rewrite sind_plus.
  assert (Hsq : 0 <= sqrt (1 - sunpos_e d * sunpos_e d) <= 1).
  { split; [apply sqrt_pos |]. rewrite <- sqrt_1 at 2. apply sqrt_le_1; nra. }
  assert (Hx : sunpos_x d < -0.85) by (unfold sunpos_x; lra).
  assert (Hy : - (1 / 2) <= sunpos_y d <= 1 / 2) by (unfold sunpos_y; nra).
  set (r := hypot _ _) in *. set (sv := __sind (sunpos_v d)) in *.
  set (cv := __cosd (sunpos_v d)) in *.
  set (cw := __cosd (sunpos_w d)) in *. set (sw := __sind (sunpos_w d)) in *.
  assert (Hpos : 0 < r * (sv * cw + cv * sw)).
  { replace (r * (sv * cw + cv * sw)) with ((r * sv) * cw + (r * cv) * sw) by ring.
    rewrite Px, Py. nra. }
  nra.
Qed.

Lemma sunpos_M_186 : 170 < sunpos_M 186 < 190.
Proof.
  unfold sunpos_M, __revolution. rewrite (floor_unique _ 1); lra.
Qed.

Lemma sind_pos_angle a : -90 <= a <= 90 -> 0 < __sind a -> 0 < a.
Proof.
  intros Ha Hs. destruct (Rlt_le_dec 0 a) as [H | H]; [assumption | exfalso].
  destruct (Req_dec a 0) as [-> | Hne]; [rewrite sind_0 in Hs; lra |].
  assert (__sind a < __sind 0) by (apply sind_incr; lra).
  rewrite sind_0 in *. lra.
Qed.

Lemma atan2d_right y x : 0 <= x -> -90 <= __atan2d y x <= 90.
Proof.
  intros Hx. unfold __atan2d. destruct (atan2_right y x Hx) as [H1 H2].
  apply degrees_le in H1, H2. unfold degrees in *. pose proof PI_RGT_0.
  assert (E1 : - (PI / 2) * 180 / PI = -90) by (field; lra).
  assert (E2 : PI / 2 * 180 / PI = 90) by (field; lra).
  lra.
Qed.

(** Claim C4 fails on the code: at latitude -90 on 2000-07-04 the
    declination is positive, [90 - latitude + dec] exceeds 180, and the
    reflected value [__solar_altitude] returns is negative, outside
    [0, 180]. *)
Theorem solar_altitude_south_pole_negative :
  exists v, result (__solar_altitude (-90) 2000 7 4) = Ok v /\ v < 0.
Proof.
  assert (Hd : -73000 <= 186 <= 37000) by lra.
  pose proof (sunpos_e_bounds 186 Hd) as He.
  assert (He' : -1 <= sunpos_e 186 <= 1) by lra.
  pose proof (sunpos_eq 186 He') as Hp.
  pose proof (sunRADec_eq 186 _ _ Hp) as Hrd.
  pose proof (obl_ecl_bounds 186 Hd) as Ho.
  assert (Hco : 0 < __cosd (obl_ecl 186)) by (apply cosd_pos; lra).
  assert (Hso : 0 < __sind (obl_ecl 186)).
  { rewrite <- sind_0. apply sind_incr; lra. }
  assert (Hr : 0 < hypot (sunpos_x 186) (sunpos_y 186)).
  { pose proof (sunpos_r_bounds 186) as Hr. unfold Rabs in Hr.
    destruct (Rcase_abs (sunpos_e 186)); lra. }
  set (r := hypot (sunpos_x 186) (sunpos_y 186)) in *.
  set (L := if Rge_dec (sunpos_v 186 + sunpos_w 186) 360
            then sunpos_v 186 + sunpos_w 186 - 360
            else sunpos_v 186 + sunpos_w 186) in *.
  assert (HL : 0 < __sind L).
  { pose proof (sind_true_longitude_pos 186 Hd sunpos_M_186) as H.
    unfold L. destruct (Rge_dec _ 360); [rewrite sind_minus_360 |]; exact H. }
  set (dec := __atan2d (radec_z 186 r L)
                (hypot (radec_x r L) (radec_y 186 r L))) in *.
  assert (Hdec : 0 < dec).
  { apply sind_pos_angle.
    - apply atan2d_right. apply hypot_nonneg.
    - unfold dec. rewrite decl_sind by assumption. apply Rmult_lt_0_compat; assumption. }
  exists (180 - (90 - -90 + dec)). split; [| lra].
  unfold __solar_altitude. cbv zeta.
  replace (__daysSince2000Jan0 2000 7 4) with 186%Z by reflexivity.
  rewrite Hrd, bind_ret.
  destruct (Rgt_dec (90 - -90 + dec) 90); [reflexivity | lra].
Qed.

(** The declination stays within the obliquity. *)
Lemma declination_within_obliquity o dec :
  0 < o < 90 -> -90 <= dec <= 90 -> __cosd o <= __cosd dec -> - o <= dec <= o.
Proof.
  intros Ho Hd Hc. split.
  - destruct (Rle_lt_dec (- o) dec) as [H | H]; [assumption | exfalso].
    assert (__cosd (- dec) < __cosd o) by (apply cosd_decr; lra).
    rewrite cosd_opp in *. lra.
  - destruct (Rle_lt_dec dec o) as [H | H]; [assumption | exfalso].
    assert (__cosd dec < __cosd o) by (apply cosd_decr; lra). lra.
Qed.

(** North of the Antarctic circle the altitude returned lies in [0, 90]. *)
Lemma solar_altitude_range lat y m day :
  supported_date y m day = true -> -66.5 <= lat <= 90 ->
  exists v, result (__solar_altitude lat y m day) = Ok v /\ 0 <= v <= 90.
Proof.
  intros Hd Hlat.
  assert (Hn : -73000 <= IZR (__daysSince2000Jan0 y m day) <= 37000).
  { apply supported_date_inv in Hd. apply daysSince_bounds in Hd.
    destruct Hd as [H1 H2]. apply IZR_le in H1, H2. lra. }
  destruct (sunpos_supported _ Hn) as (slon & sr & Hp & Hr).
  pose proof (sunRADec_eq _ _ _ Hp) as Hrd.
  pose proof (obl_ecl_bounds _ Hn) as Ho.
  set (d := IZR (__daysSince2000Jan0 y m day)) in *.
  assert (Hco : 0 < __cosd (obl_ecl d)) by (apply cosd_pos; lra).
  set (dec := __atan2d (radec_z d sr slon)
                (hypot (radec_x sr slon) (radec_y d sr slon))) in *.
  assert (Hdec : - obl_ecl d <= dec <= obl_ecl d).
  { apply declination_within_obliquity; [lra | |].
    - apply atan2d_right. apply hypot_nonneg.
    - apply decl_cosd_ge; [lra | assumption]. }
  unfold __solar_altitude. cbv zeta. fold d. rewrite Hrd, bind_ret.
  destruct (Rgt_dec (90 - lat + dec) 90).
  - eexists. split; [reflexivity | lra].
  - destruct (Rlt_dec (90 - lat + dec) 0).
    + eexists. split; [reflexivity | lra].
    + eexists. split; [reflexivity | lra].
Qed.

(** * Further properties *)

(** ** The day count and the day of the year *)

Section DayCountMore.
Local Open Scope Z_scope.

Lemma daysSince_year_1900 m d :
  valid_date 1900 m d = true ->
  __daysSince2000Jan0 1900 m d
  = gregorian_days 1900 m d - (if m <? 3 then 1 else 0).
Proof.
  intros Hv.
  assert (H : all_dates year_offset
    (fun off y m d => __daysSince2000Jan0 y m d
                      =? off + days_of_months y 1 (Z.to_nat (m - 1)) + d
                         - (if m <? 3 then 1 else 0))
    1900 1 = true) by (vm_compute; reflexivity).
  pose proof (all_dates_spec _ _ _ _ H 1900 m d ltac:(lia) Hv) as E.
  apply Z.eqb_eq in E. exact E.
Qed.

(** From 1900-03-01 to 2099-12-31 [__daysSince2000Jan0] is the number
    of days of the Gregorian calendar since 1999-12-31. *)
Theorem daysSince_gregorian_from_1900_03_01 y m d :
  valid_date y m d = true ->
  (y = 1900 /\ 3 <= m) \/ 1901 <= y <= 2099 ->
  __daysSince2000Jan0 y m d = gregorian_days y m d.
Proof.
  intros Hv [[-> Hm] | Hy].
  - rewrite daysSince_year_1900 by assumption.
    destruct (m <? 3) eqn:E; [apply Z.ltb_lt in E; lia | lia].
  - apply daysSince_correct_from_1901; assumption.
Qed.

Lemma daysSince_gregorian_from_1900_03_01_witness :
  valid_date 2008 10 31 = true /\
  ((2008 = 1900 /\ 3 <= 10) \/ 1901 <= 2008 <= 2099) /\
  __daysSince2000Jan0 2008 10 31 = gregorian_days 2008 10 31.
Proof.
  assert (Hv : valid_date 2008 10 31 = true) by reflexivity.
  assert (Hy : (2008 = 1900 /\ 3 <= 10) \/ 1901 <= 2008 <= 2099) by lia.
  split; [exact Hv |]. split; [exact Hy |].
  exact (daysSince_gregorian_from_1900_03_01 2008 10 31 Hv Hy).
Defined.

(** From 1801-01-01 to 1900-02-28 [__daysSince2000Jan0] is one less than
    the number of days of the Gregorian calendar since 1999-12-31. *)
Theorem daysSince_one_early_until_1900_02_28 y m d :
  valid_date y m d = true ->
  1801 <= y <= 1899 \/ (y = 1900 /\ m <= 2) ->
  __daysSince2000Jan0 y m d = gregorian_days y m d - 1.
Proof.
  intros Hv [Hy | [-> Hm]].
  - apply daysSince_off_by_one_before_1900; assumption.
  - rewrite daysSince_year_1900 by assumption.
    destruct (m <? 3) eqn:E; [lia | apply Z.ltb_ge in E; lia].
Qed.

Lemma daysSince_one_early_until_1900_02_28_witness :
  valid_date 1801 1 1 = true /\
  (1801 <= 1801 <= 1899 \/ (1801 = 1900 /\ 1 <= 2)) /\
  __daysSince2000Jan0 1801 1 1 = gregorian_days 1801 1 1 - 1.
Proof.
  assert (Hv : valid_date 1801 1 1 = true) by reflexivity.
  assert (Hy : 1801 <= 1801 <= 1899 \/ (1801 = 1900 /\ 1 <= 2)) by lia.
  split; [exact Hv |]. split; [exact Hy |].
  exact (daysSince_one_early_until_1900_02_28 1801 1 1 Hv Hy).
Defined.

(** From one day of 1801-2099 to the next [__daysSince2000Jan0] grows by
    one, except from 1900-02-28 to 1900-03-01. *)
Theorem daysSince_next_date y m d :
  1801 <= y <= 2099 -> valid_date y m d = true ->
  (y, m, d) <> (1900, 2, 28) ->
  let '(y', m', d') := next_date y m d in
  __daysSince2000Jan0 y' m' d' = __daysSince2000Jan0 y m d + 1.
Proof.
  intros Hy Hv Hne.
  assert (H : all_dates (fun _ => tt)
    (fun _ y m d =>
       ((y =? 1900) && (m =? 2) && (d =? 28))
       || (let '(y', m', d') := next_date y m d in
           __daysSince2000Jan0 y' m' d' =? __daysSince2000Jan0 y m d + 1))
    1801 299 = true) by (vm_compute; reflexivity).
  pose proof (all_dates_spec _ _ _ _ H y m d ltac:(lia) Hv) as E.
  cbv beta in E. apply orb_prop in E. destruct E as [E | E].
  - exfalso. apply Hne.
    apply andb_prop in E. destruct E as [E E3]. apply andb_prop in E. destruct E as [E1 E2].
    apply Z.eqb_eq in E1, E2, E3. congruence.
  - destruct (next_date y m d) as [[y' m'] d']. apply Z.eqb_eq in E. exact E.
Qed.

Lemma daysSince_next_date_witness :
  1801 <= 1999 <= 2099 /\ valid_date 1999 12 31 = true /\
  (1999, 12, 31) <> (1900, 2, 28) /\
  next_date 1999 12 31 = (2000, 1, 1) /\
  __daysSince2000Jan0 2000 1 1 = __daysSince2000Jan0 1999 12 31 + 1.
Proof.
  assert (Hy : 1801 <= 1999 <= 2099) by lia.
  assert (Hv : valid_date 1999 12 31 = true) by reflexivity.
  assert (Hne : (1999, 12, 31) <> (1900, 2, 28)) by discriminate.
  repeat (split; [assumption || reflexivity |]).
  exact (daysSince_next_date 1999 12 31 Hy Hv Hne).
Defined.

Lemma valid_date_inv y m d :
  valid_date y m d = true -> 1 <= m <= 12 /\ 1 <= d <= days_in_month y m.
Proof.
  unfold valid_date. intros H.
  repeat (apply andb_prop in H; destruct H as [H ?]). lia.
Qed.

(** The two tables of [__julian] are the running sums of the month
    lengths. *)
Lemma days_of_months_table y (k : nat) :
  (k <= 12)%nat ->
  days_of_months y 1 k
  = nth k (if isleap y
           then [0; 31; 60; 91; 121; 152; 182; 213; 244; 274; 305; 335; 366]
           else [0; 31; 59; 90; 120; 151; 181; 212; 243; 273; 304; 334; 365]) 0.
Proof.
  intros Hk.
  do 13 (destruct k as [| k];
         [cbv [days_of_months days_in_month]; destruct (isleap y); reflexivity |]).
  lia.
Qed.

(** For a month from 1 to 12 [__julian] adds the day to the lengths of
    the months before: on a valid date it is the day of the year, from 1
    to 365, or 366 in a leap year. *)
Theorem julian_day_of_year y m d :
  1 <= m <= 12 ->
  __julian y m d = Some (days_of_months y 1 (Z.to_nat (m - 1)) + d) /\
  (valid_date y m d = true ->
   1 <= days_of_months y 1 (Z.to_nat (m - 1)) + d <= days_in_year y).
Proof.
  intros Hm.
  assert (Hc : m = 1 \/ m = 2 \/ m = 3 \/ m = 4 \/ m = 5 \/ m = 6 \/ m = 7
               \/ m = 8 \/ m = 9 \/ m = 10 \/ m = 11 \/ m = 12) by lia.
  rewrite days_of_months_table by lia.
  split.
  - unfold __julian.
    repeat (destruct Hc as [-> | Hc]); try subst m;
      destruct (isleap y); reflexivity.
  - intros Hv. apply valid_date_inv in Hv. destruct Hv as [_ Hd].
    revert Hd. unfold days_in_year, days_in_month.
    repeat (destruct Hc as [-> | Hc]); try subst m;
      destruct (isleap y);
      match goal with
      | |- context [Z.to_nat ?a] =>
          let v := eval vm_compute in (Z.to_nat a) in
          change (Z.to_nat a) with v
      end;
      cbn -[Z.add Z.le]; lia.
Qed.

Lemma julian_day_of_year_witness :
  1 <= 12 <= 12 /\ __julian 2004 12 31 = Some 366.
Proof.
  assert (Hm : 1 <= 12 <= 12) by lia. split; [exact Hm |].
  destruct (julian_day_of_year 2004 12 31 Hm) as [H _]. exact H.
Defined.

Lemma julian_none_iff y m d :
  __julian y m d = None <-> m < -12 \/ 13 < m.
Proof.
  unfold __julian, py_index.
  set (l := if isleap y then _ else _).
  assert (Hl : List.length l = 13%nat) by (unfold l; destruct (isleap y); reflexivity).
  rewrite Hl. cbv zeta.
  set (j := if m - 1 <? 0 then m - 1 + Z.of_nat 13 else m - 1).
  destruct ((0 <=? j) && (j <? Z.of_nat 13)) eqn:E.
  - apply andb_prop in E. destruct E as [E1 E2].
    apply Z.leb_le in E1. apply Z.ltb_lt in E2.
    destruct (nth_error l (Z.to_nat j)) eqn:En.
    + split; [discriminate |]. intros H. exfalso. unfold j in *.
      destruct (m - 1 <? 0) eqn:E0; [apply Z.ltb_lt in E0 | apply Z.ltb_ge in E0]; lia.
    + apply nth_error_None in En. lia.
  - split; [intros _ | reflexivity].
    apply andb_false_iff in E. unfold j in *.
    destruct (m - 1 <? 0) eqn:E0; [apply Z.ltb_lt in E0 | apply Z.ltb_ge in E0];
      destruct E as [E | E]; [apply Z.leb_gt in E | apply Z.ltb_ge in E
                              | apply Z.leb_gt in E | apply Z.ltb_ge in E]; lia.
Qed.

(** [__julian] raises [IndexError] for a month below -12 or above 13
    only; the months 0 and 13 are taken for the end of the year. *)
Theorem julian_index_error y m d :
  (__julian y m d = None <-> m < -12 \/ 13 < m) /\
  __julian y 0 d = Some (days_in_year y + d) /\
  __julian y 13 d = Some (days_in_year y + d).
Proof.
  split; [apply julian_none_iff |].
  unfold __julian, days_in_year. destruct (isleap y); split; reflexivity.
Qed.

End DayCountMore.

(** ** Angle reduction, sidereal time and the inverse functions *)

Lemma rev180_small x : -180 <= x < 180 -> __rev180 x = x.
Proof. intros H. unfold __rev180. rewrite (floor_unique _ 0); lra. Qed.

(** The two reducers are idempotent, and [__rev180] is [__revolution]
    shifted by half a turn. *)
Theorem reducers_idempotent_and_related x :
  __revolution (__revolution x) = __revolution x /\
  __rev180 (__rev180 x) = __rev180 x /\
  __rev180 (__revolution x) = __rev180 x /\
  __rev180 x = __revolution (x + 180) - 180.
Proof.
  split; [apply revolution_small, revolution_range |].
  split; [apply rev180_small, rev180_range |].
  split.
  - unfold __revolution, floor.
    replace (x - 360 * IZR (Int_part (x / 360)))
      with (x + 360 * IZR (- Int_part (x / 360))) by (rewrite opp_IZR; ring).
    apply rev180_periodic.
  - unfold __rev180, __revolution.
    replace ((x + 180) / 360) with (x / 360 + 0.5) by lra. lra.
Qed.

Lemma revolution_absorbs x y : __revolution (__revolution x + y) = __revolution (x + y).
Proof.
  unfold __revolution at 2. unfold floor.
  replace (x - 360 * IZR (Int_part (x / 360)) + y)
    with ((x + y) + 360 * IZR (- Int_part (x / 360)))
    by (rewrite opp_IZR; ring).
  apply revolution_periodic.
Qed.

(** [__GMST0] is the Sun's mean longitude [M + w] plus half a turn,
    reduced to [0, 360), as its comment says. *)
Theorem GMST0_mean_longitude d :
  __GMST0 d = __revolution (sunpos_M d + sunpos_w d + 180) /\
  0 <= __GMST0 d < 360.
Proof.
  split.
  - unfold sunpos_M. rewrite Rplus_assoc, revolution_absorbs.
    unfold __GMST0, sunpos_w. f_equal. lra.
  - unfold __GMST0. apply revolution_range.
Qed.

(** [__acosd] inverts [__cosd] on [-1, 1], with a result in [0, 180];
    outside [-1, 1] it raises the [ValueError] of [math.acos]. *)
Theorem acosd_inverse x :
  (-1 <= x <= 1 ->
   exists a, result (__acosd x) = Ok a /\ 0 <= a <= 180 /\ __cosd a = x) /\
  (x < -1 \/ 1 < x -> result (__acosd x) = Raise (ValueError "acos")).
Proof.
  split.
  - intros Hx. exists (degrees (acos x)).
    rewrite acosd_ok by assumption. split; [reflexivity |].
    split; [apply acosd_range |].
    unfold __cosd. rewrite radians_degrees. apply cos_acos. assumption.
  - intros Hx. unfold __acosd, math_acos.
    destruct (Rle_dec (-1) x); [| reflexivity].
    destruct (Rle_dec x 1); [lra | reflexivity].
Qed.

Lemma acosd_inverse_witness :
  -1 <= 0 <= 1 /\
  exists a, result (__acosd 0) = Ok a /\ 0 <= a <= 180 /\ __cosd a = 0.
Proof.
  assert (H : -1 <= 0 <= 1) by lra. split; [exact H |].
  exact (proj1 (acosd_inverse 0) H).
Defined.

(** [__atan2d y x] is the polar angle of the point [(x, y)], in
    (-180, 180]: with [math.hypot] it gives the point back through
    [__cosd] and [__sind]. *)
Theorem atan2d_polar x y :
  x <> 0 \/ y <> 0 ->
  -180 < __atan2d y x <= 180 /\
  hypot x y * __cosd (__atan2d y x) = x /\
  hypot x y * __sind (__atan2d y x) = y.
Proof.
  intros H. split; [apply atan2d_bounds |].
  rewrite cosd_atan2d, sind_atan2d. apply atan2_polar. assumption.
Qed.

Lemma atan2d_polar_witness :
  (-1 <> 0 \/ 0 <> 0) /\ -180 < __atan2d 0 (-1) <= 180 /\
  hypot (-1) 0 * __cosd (__atan2d 0 (-1)) = -1.
Proof.
  assert (H : -1 <> 0 \/ 0 <> 0) by (left; lra). split; [exact H |].
  destruct (atan2d_polar (-1) 0 H) as (H1 & H2 & _). split; assumption.
Defined.

(** [__sunpos] returns the distance [1 - e cos E], within [|e|] of 1, as
    long as the eccentricity [e] is in [-1, 1]; beyond, [math.sqrt]
    raises [ValueError]. *)
Theorem sunpos_distance d :
  (-1 <= sunpos_e d <= 1 ->
   exists lon,
     __sunpos d = ret (lon, 1 - sunpos_e d * __cosd (sunpos_E d)) /\
     1 - Rabs (sunpos_e d) <= 1 - sunpos_e d * __cosd (sunpos_E d)
       <= 1 + Rabs (sunpos_e d)) /\
  (sunpos_e d < -1 \/ 1 < sunpos_e d ->
   result (__sunpos d) = Raise (ValueError "sqrt")).
Proof.
  split.
  - intros He. eexists. split.
    + rewrite sunpos_eq by assumption. rewrite sunpos_r by assumption. reflexivity.
    + pose proof (cosd_bound (sunpos_E d)).
      unfold Rabs. destruct (Rcase_abs (sunpos_e d)); nra.
  - intros He. unfold __sunpos. fold (sunpos_e d).
    unfold math_sqrt. destruct (Rle_dec 0 (1 - sunpos_e d * sunpos_e d)) as [H | H].
    + exfalso. destruct He; nra.
    + reflexivity.
Qed.

Lemma sunpos_distance_witness :
  -1 <= sunpos_e 0 <= 1 /\
  exists lon, __sunpos 0 = ret (lon, 1 - sunpos_e 0 * __cosd (sunpos_E 0)).
Proof.
  assert (H : -1 <= sunpos_e 0 <= 1) by (unfold sunpos_e; lra).
  split; [exact H |].
  destruct (proj1 (sunpos_distance 0) H) as (lon & Hl & _).
  exists lon. exact Hl.
Defined.

(** On the days of 1801-2099 (day counts from -73000 to 37000)
    [__sunRADec] returns a right ascension in (-180, 180], a declination
    within the obliquity of the ecliptic, itself below 23.47 degrees, with
    [sin dec = sin lon * sin obl], and the distance of [__sunpos]. *)
Theorem sunRADec_declination d :
  -73000 <= d <= 37000 ->
  exists lon sRA sdec sr,
    __sunpos d = ret (lon, sr) /\
    __sunRADec d = ret (sRA, sdec, sr) /\
    -180 < sRA <= 180 /\
    - obl_ecl d <= sdec <= obl_ecl d /\ obl_ecl d < 23.47 /\
    __sind sdec = __sind lon * __sind (obl_ecl d) /\
    0.98 < sr < 1.02.
Proof.
  intros Hd.
  destruct (sunpos_supported d Hd) as (lon & sr & Hp & Hr).
  pose proof (obl_ecl_bounds d Hd) as Ho.
  assert (Hco : 0 < __cosd (obl_ecl d)) by (apply cosd_pos; lra).
  eexists lon, _, _, sr. split; [exact Hp |].
  split; [apply sunRADec_eq; exact Hp |].
  split; [apply atan2d_bounds |].
  split.
  { apply declination_within_obliquity; [lra | |].
    - apply atan2d_right. apply hypot_nonneg.
    - apply decl_cosd_ge; [lra | assumption]. }
  split; [lra |]. split; [| exact Hr].
  apply decl_sind; [lra | assumption].
Qed.

Lemma sunRADec_declination_witness :
  -73000 <= 0 <= 37000 /\
  exists sRA sdec sr, __sunRADec 0 = ret (sRA, sdec, sr) /\ -23.47 < sdec < 23.47.
Proof.
  assert (H : -73000 <= 0 <= 37000) by lra. split; [exact H |].
  destruct (sunRADec_declination 0 H) as (lon & sRA & sdec & sr & _ & H1 & _ & H2 & H3 & _).
  exists sRA, sdec, sr. split; [exact H1 | lra].
Defined.

(** ** The two workhorses together *)

Lemma sqr_prod_le_1 a b : -1 <= a <= 1 -> -1 <= b <= 1 -> a * b * (a * b) <= 1.
Proof.
  intros Ha Hb. assert (0 <= a * a <= 1) by nra. assert (0 <= b * b <= 1) by nra.
  replace (a * b * (a * b)) with ((a * a) * (b * b)) by ring. nra.
Qed.

(** On a supported date and longitude the workhorses either return or
    stop at the division by [cos lat * cos dec]. *)
Lemma daylen_ok_or_zero_division y m day lon lat altit ul :
  supported_date y m day = true -> supported_lon lon ->
  (exists v, result (__daylen y m day lon lat altit ul) = Ok v) \/
  result (__daylen y m day lon lat altit ul) = Raise ZeroDivisionError.
Proof.
  intros Hd Hl.
  pose proof (local_noon_bounds y m day lon Hd Hl) as Hn.
  destruct (Req_dec (__cosd lat) 0) as [Hlat | Hlat].
  - right.
    destruct (sunRADec_supported _ Hn) as (slon & sRA & sdec & sr & Hp & Hrd & Hr & _).
    unfold __daylen. cbv zeta. fold (local_noon y m day lon).
    rewrite Hp, bind_ret.
    match goal with
    | |- context [math_sqrt ?a] =>
        assert (Hs : 0 <= a);
        [ pose proof (sqr_prod_le_1 _ _
              (sind_bound (23.4393 - 3.563e-7 * local_noon y m day lon))
              (sind_bound slon)); lra
        | rewrite (math_sqrt_ok a Hs) ]
    end.
    rewrite bind_ret. rewrite fdiv_ok by lra. rewrite bind_ret.
    rewrite Hlat, Rmult_0_l, fdiv_zero. reflexivity.
  - left. destruct (daylen_value y m day lon lat altit ul Hn Hlat)
      as (slon & sr & _ & _ & Hres).
    eexists. rewrite Hres. reflexivity.
Qed.

Lemma sunriset_ok_or_zero_division y m day lon lat altit ul :
  supported_date y m day = true -> supported_lon lon ->
  (exists p, result (__sunriset y m day lon lat altit ul) = Ok p) \/
  result (__sunriset y m day lon lat altit ul) = Raise ZeroDivisionError.
Proof.
  intros Hd Hl.
  pose proof (local_noon_bounds y m day lon Hd Hl) as Hn.
  destruct (Req_dec (__cosd lat) 0) as [Hlat | Hlat].
  - right.
    destruct (sunRADec_supported _ Hn) as (slon & sRA & sdec & sr & Hp & Hrd & Hr & _).
    unfold __sunriset. cbv zeta. fold (local_noon y m day lon).
    rewrite Hrd, bind_ret. rewrite fdiv_ok by lra. rewrite bind_ret.
    rewrite Hlat, Rmult_0_l, fdiv_zero. reflexivity.
  - left. destruct (sunriset_value y m day lon lat altit ul Hn Hlat)
      as (slon & sRA & sdec & sr & _ & _ & _ & _ & _ & Hres).
    eexists. rewrite Hres. reflexivity.
Qed.

(** On a supported date and a longitude in [-180, 180], whatever the
    latitude, the altitude and the limb flag, neither [__sunriset] nor
    [__daylen] raises a [ValueError]: [math.sqrt] and [math.acos] stay
    inside their domains. *)
Theorem sunriset_daylen_no_domain_error y m day lon lat altit ul :
  supported_date y m day = true -> supported_lon lon ->
  forall fn,
    result (__sunriset y m day lon lat altit ul) <> Raise (ValueError fn) /\
    result (__daylen y m day lon lat altit ul) <> Raise (ValueError fn).
Proof.
  intros Hd Hl fn. split.
  - destruct (sunriset_ok_or_zero_division y m day lon lat altit ul Hd Hl)
      as [[p H] | H]; rewrite H; discriminate.
  - destruct (daylen_ok_or_zero_division y m day lon lat altit ul Hd Hl)
      as [[v H] | H]; rewrite H; discriminate.
Qed.

Lemma sunriset_daylen_no_domain_error_witness :
  supported_date 2000 1 1 = true /\ supported_lon 0 /\
  result (sunRiseSet 2000 1 1 0 80) <> Raise (ValueError "sqrt") /\
  result (dayLength 2000 1 1 0 80) <> Raise (ValueError "sqrt").
Proof.
  assert (Hl : supported_lon 0) by (unfold supported_lon; lra).
  split; [reflexivity |]. split; [exact Hl |].
  exact (sunriset_daylen_no_domain_error 2000 1 1 0 80 (-35 / 60) 1 eq_refl Hl "sqrt"%string).
Defined.

(** Both workhorses compute the same [cost]. *)
Lemma costs_agree d lat altit ul slon sdec sr :
  __sind sdec = __sind slon * __sind (obl_ecl d) -> 0 < __cosd sdec ->
  sunriset_cost lat altit ul sdec sr = daylen_cost d lat altit ul slon sr.
Proof.
  intros Hs Hc. unfold sunriset_cost, daylen_cost. cbv zeta.
  assert (E : sqrt (1 - __sind (obl_ecl d) * __sind slon
                        * (__sind (obl_ecl d) * __sind slon)) = __cosd sdec).
  { apply sqrt_lem_1.
    - pose proof (sqr_prod_le_1 _ _ (sind_bound (obl_ecl d)) (sind_bound slon)). lra.
    - lra.
    - pose proof (sind_cosd_sqr sdec) as H. rewrite Hs in H. lra. }
  rewrite E, Hs. f_equal. ring.
Qed.

Lemma daylen_twice_arc c : daylen_of_cost c = 2 * diurnal_arc c.
Proof.
  unfold daylen_of_cost, diurnal_arc.
  destruct (Rge_dec c 1); [lra |]. destruct (Rle_dec c (-1)); lra.
Qed.

Lemma workhorses_value y m day lon lat altit ul :
  supported_date y m day = true -> supported_lon lon -> __cosd lat <> 0 ->
  exists ts c,
    result (__sunriset y m day lon lat altit ul)
      = Ok (ts - diurnal_arc c, ts + diurnal_arc c) /\
    result (__daylen y m day lon lat altit ul) = Ok (2 * diurnal_arc c) /\
    0 < ts <= 24.
Proof.
  intros Hd Hl Hlat.
  pose proof (local_noon_bounds y m day lon Hd Hl) as Hn.
  destruct (sunriset_value y m day lon lat altit ul Hn Hlat)
    as (slon & sRA & sdec & sr & Hp & _ & _ & Hs & Hc & Hres).
  destruct (daylen_value y m day lon lat altit ul Hn Hlat)
    as (slon' & sr' & Hp' & _ & Hres').
  rewrite Hp in Hp'. injection Hp' as <- <-.
  exists (sunriset_tsouth (local_noon y m day lon) lon sRA),
         (sunriset_cost lat altit ul sdec sr).
  split; [rewrite Hres; reflexivity |]. split; [| apply tsouth_bounds].
  rewrite Hres'. unfold result. simpl.
  rewrite <- (costs_agree _ lat altit ul slon sdec sr) by (assumption || lra).
  rewrite daylen_twice_arc. reflexivity.
Qed.

(** [__daylen] is the span from rise to set of [__sunriset], for the
    same altitude and limb flag. *)
Theorem daylen_is_set_minus_rise y m day lon lat altit ul :
  supported_date y m day = true -> supported_lon lon -> __cosd lat <> 0 ->
  exists rise set v,
    result (__sunriset y m day lon lat altit ul) = Ok (rise, set) /\
    result (__daylen y m day lon lat altit ul) = Ok v /\
    v = set - rise.
Proof.
  intros Hd Hl Hlat.
  destruct (workhorses_value y m day lon lat altit ul Hd Hl Hlat)
    as (ts & c & H1 & H2 & _).
  eexists _, _, _. split; [exact H1 |]. split; [exact H2 |]. lra.
Qed.

Lemma edinburgh_inputs :
  supported_date 2008 10 31 = true /\ supported_lon (-3.191528) /\
  -90 < 55.946124 < 90 /\ __cosd 55.946124 <> 0.
Proof.
  split; [reflexivity |]. split; [unfold supported_lon; lra |].
  split; [lra |]. apply Rgt_not_eq, cosd_pos. lra.
Qed.

Lemma daylen_is_set_minus_rise_witness :
  supported_date 2008 10 31 = true /\ supported_lon (-3.191528) /\
  __cosd 55.946124 <> 0 /\
  exists rise set,
    result (sunRiseSet 2008 10 31 (-3.191528) 55.946124) = Ok (rise, set) /\
    result (dayLength 2008 10 31 (-3.191528) 55.946124) = Ok (set - rise).
Proof.
  destruct edinburgh_inputs as (Hd & Hl & _ & Hc).
  repeat (split; [assumption |]).
  destruct (daylen_is_set_minus_rise 2008 10 31 (-3.191528) 55.946124 (-35 / 60) 1
              Hd Hl Hc) as (rise & set & v & H1 & H2 & ->).
  exists rise, set. split; assumption.
Defined.

(** [aviationTime] returns sunrise less half an hour and sunset plus half
    an hour: a span one hour longer than [dayLength]. *)
Theorem aviationTime_span y m day lon lat :
  supported_date y m day = true -> supported_lon lon -> __cosd lat <> 0 ->
  exists rise set len,
    result (sunRiseSet y m day lon lat) = Ok (rise, set) /\
    result (dayLength y m day lon lat) = Ok len /\
    result (aviationTime y m day lon lat) = Ok (rise - 0.5, set + 0.5) /\
    (set + 0.5) - (rise - 0.5) = len + 1 /\
    -12.5 < rise - 0.5 <= 23.5 /\ 0.5 < set + 0.5 <= 36.5.
Proof.
  intros Hd Hl Hlat.
  destruct (workhorses_value y m day lon lat (-35 / 60) 1 Hd Hl Hlat)
    as (ts & c & H1 & H2 & Hts).
  pose proof (diurnal_arc_bounds c) as Hc.
  eexists _, _, _. split; [exact H1 |]. split; [exact H2 |].
  split.
  - unfold aviationTime. unfold sunRiseSet in H1.
    rewrite (result_bind_ok _ _ _ H1). reflexivity.
  - repeat split; lra.
Qed.

Lemma aviationTime_span_witness :
  supported_date 2008 10 31 = true /\ supported_lon (-3.191528) /\
  __cosd 55.946124 <> 0 /\
  exists launch landing len,
    result (aviationTime 2008 10 31 (-3.191528) 55.946124) = Ok (launch, landing) /\
    result (dayLength 2008 10 31 (-3.191528) 55.946124) = Ok len /\
    landing - launch = len + 1.
Proof.
  destruct edinburgh_inputs as (Hd & Hl & _ & Hc).
  repeat (split; [assumption |]).
  destruct (aviationTime_span 2008 10 31 (-3.191528) 55.946124 Hd Hl Hc)
    as (rise & set & len & _ & H2 & H3 & H4 & _).
  exists (rise - 0.5), (set + 0.5), len. repeat (split; [assumption |]). exact H4.
Defined.

(** Between the poles the dusks come in the order sunset, civil,
    nautical, astronomical, and the four day lengths grow in that
    order. *)
Theorem twilight_dusk_order_and_lengths y m day lon lat :
  supported_date y m day = true -> supported_lon lon -> -90 < lat < 90 ->
  exists ss sc sn sa ls lc ln la,
    (exists r, result (sunRiseSet y m day lon lat) = Ok (r, ss)) /\
    (exists r, result (civilTwilight y m day lon lat) = Ok (r, sc)) /\
    (exists r, result (nauticalTwilight y m day lon lat) = Ok (r, sn)) /\
    (exists r, result (astronomicalTwilight y m day lon lat) = Ok (r, sa)) /\
    result (dayLength y m day lon lat) = Ok ls /\
    result (dayCivilTwilightLength y m day lon lat) = Ok lc /\
    result (dayNauticalTwilightLength y m day lon lat) = Ok ln /\
    result (dayAstronomicalTwilightLength y m day lon lat) = Ok la /\
    ss <= sc /\ sc <= sn /\ sn <= sa /\
    ls <= lc /\ lc <= ln /\ ln <= la.
Proof.
  intros Hd Hl Hlat.
  pose proof (cosd_pos lat Hlat) as Hcl.
  assert (Hne : __cosd lat <> 0) by lra.
  destruct (four_costs y m day lon lat Hd Hl Hcl)
    as (ts & sdec & sr & _ & _ & Hs & Hc & Hn & Ha & Han & Hnc & Hcs).
  assert (Hlen : forall altit ul,
    result (__sunriset y m day lon lat altit ul)
      = Ok (ts - diurnal_arc (sunriset_cost lat altit ul sdec sr),
            ts + diurnal_arc (sunriset_cost lat altit ul sdec sr)) ->
    result (__daylen y m day lon lat altit ul)
      = Ok (2 * diurnal_arc (sunriset_cost lat altit ul sdec sr))).
  { intros altit ul Hr.
    destruct (workhorses_value y m day lon lat altit ul Hd Hl Hne)
      as (ts' & c & H1 & H2 & _).
    rewrite H1 in Hr. injection Hr as E1 E2.
    assert (diurnal_arc c = diurnal_arc (sunriset_cost lat altit ul sdec sr)) by lra.
    rewrite H2. f_equal. lra. }
  apply Rlt_le in Han, Hnc, Hcs.
  apply diurnal_arc_decr in Han, Hnc, Hcs.
  eexists _, _, _, _, _, _, _, _.
  split; [eexists; exact Hs |]. split; [eexists; exact Hc |].
  split; [eexists; exact Hn |]. split; [eexists; exact Ha |].
  split; [exact (Hlen (-35 / 60) 1%Z Hs) |]. split; [exact (Hlen (-6) 0%Z Hc) |].
  split; [exact (Hlen (-12) 0%Z Hn) |]. split; [exact (Hlen (-18) 0%Z Ha) |].
  repeat split; lra.
Qed.

Lemma twilight_dusk_order_and_lengths_witness :
  supported_date 2008 10 31 = true /\ supported_lon (-3.191528) /\
  -90 < 55.946124 < 90 /\
  exists ls la,
    result (dayLength 2008 10 31 (-3.191528) 55.946124) = Ok ls /\
    result (dayAstronomicalTwilightLength 2008 10 31 (-3.191528) 55.946124) = Ok la /\
    ls <= la.
Proof.
  destruct edinburgh_inputs as (Hd & Hl & Hlat & _).
  repeat (split; [assumption |]).
  destruct (twilight_dusk_order_and_lengths 2008 10 31 (-3.191528) 55.946124 Hd Hl Hlat)
    as (ss & sc & sn & sa & ls & lc & ln & la & _ & _ & _ & _ & H1 & _ & _ & H4
        & _ & _ & _ & O1 & O2 & O3).
  exists ls, la. split; [exact H1 |]. split; [exact H4 | lra].
Defined.

(** ** The day on the equator *)

Lemma sin_multiple_bound (n : nat) x : Rabs (sin (INR n * x)) <= INR n * Rabs (sin x).
Proof.
  induction n as [| n IH].
  - simpl. rewrite Rmult_0_l, sin_0, Rabs_R0. lra.
  - rewrite S_INR. replace ((INR n + 1) * x) with (INR n * x + x) by ring.
    rewrite sin_plus.
    eapply Rle_trans; [apply Rabs_triang |].
    rewrite !Rabs_mult.
    pose proof (COS_bound x) as Hc. pose proof (COS_bound (INR n * x)) as Hc'.
    assert (Rabs (cos x) <= 1) by (apply Rabs_le; lra).
    assert (Rabs (cos (INR n * x)) <= 1) by (apply Rabs_le; lra).
    pose proof (Rabs_pos (sin (INR n * x))). pose proof (Rabs_pos (sin x)).
    nra.
Qed.

Lemma sind_2_lower : 1 / 30 <= __sind 2.
Proof.
  pose proof (sin_multiple_bound 15 (radians 2)) as H.
  replace (INR 15 * radians 2) with (PI / 6) in H by (unfold radians; simpl; field).
  rewrite sin_PI6 in H.
  assert (0 < __sind 2) by (rewrite <- sind_0; apply sind_incr; lra).
  unfold __sind in *. rewrite (Rabs_pos_eq (sin (radians 2))) in H by lra.
  rewrite Rabs_pos_eq in H by lra.
  replace (INR 15) with 15 in H by (simpl; ring). lra.
Qed.

Lemma sind_upper a : 0 < a -> __sind a < a * 4 / 180.
Proof.
  intros Ha. unfold __sind. pose proof PI_4. pose proof PI_RGT_0.
  assert (0 < radians a) by (unfold radians; nra).
  pose proof (sin_lt_x (radians a) H1). unfold radians in *. nra.
Qed.

Lemma cosd_92 : __cosd 92 = - __sind 2.
Proof.
  unfold __cosd, __sind. rewrite (sin_cos (radians 2)).
  replace (radians 92) with (PI / 2 + radians 2) by (unfold radians; field). ring.
Qed.

(** On the equator the day lasts a little more than 12 hours, all year. *)
Theorem equator_day_length y m day lon :
  supported_date y m day = true -> supported_lon lon ->
  exists v, result (dayLength y m day lon 0) = Ok v /\ 12 < v < 12.3.
Proof.
  intros Hd Hl.
  assert (H0 : 0 < __cosd 0) by (rewrite cosd_0; lra).
  assert (Hne : __cosd 0 <> 0) by lra.
  destruct (four_costs y m day lon 0 Hd Hl H0)
    as (ts & sdec & sr & Hr & Hcd & Hs & _).
  destruct (workhorses_value y m day lon 0 (-35 / 60) 1 Hd Hl Hne)
    as (ts' & c & H1 & H2 & _).
  unfold sunRiseSet in Hs. rewrite H1 in Hs. injection Hs as E1 E2.
  set (cs := sunriset_cost 0 (-35 / 60) 1 sdec sr) in *.
  assert (Earc : diurnal_arc c = diurnal_arc cs) by lra.
  exists (2 * diurnal_arc cs). split; [unfold dayLength; rewrite H2, Earc; reflexivity |].
  pose proof (sradius_bounds sr Hr) as Hsr.
  (* bounds on [cs] *)
  assert (Hcs : - __sind 2 < cs < 0).
  { unfold cs, sunriset_cost, truthy. simpl.
    set (a := -35 / 60 - 0.2666 / sr).
    assert (Ha : -0.87 < a < -0.84) by (unfold a; lra).
    rewrite sind_0, cosd_0.
    assert (Hneg : __sind a < 0) by (rewrite <- sind_0; apply sind_incr; lra).
    assert (Hlow : - (0.87 * 4 / 180) < __sind a).
    { assert (__sind (- a) < (- a) * 4 / 180) by (apply sind_upper; lra).
      rewrite sind_opp in *. lra. }
    pose proof sind_2_lower.
    assert (E : (__sind a - 0 * __sind sdec) / (1 * __cosd sdec) * __cosd sdec = __sind a)
      by (field; lra).
    set (q := (__sind a - 0 * __sind sdec) / (1 * __cosd sdec)) in *.
    split; nra. }
  pose proof (sind_bound 2). pose proof sind_2_lower.
  unfold diurnal_arc.
  destruct (Rge_dec cs 1); [lra |]. destruct (Rle_dec cs (-1)); [lra |].
  assert (L1 : acos 0 < acos cs) by (apply acos_decr_strict; lra).
  rewrite acos_0 in L1.
  assert (L2 : acos cs < acos (__cosd 92)).
  { apply acos_decr_strict; rewrite ?cosd_92; lra. }
  assert (E92 : acos (__cosd 92) = radians 92).
  { unfold __cosd. apply acos_cos. pose proof PI_RGT_0. unfold radians. lra. }
  rewrite E92 in L2.
  apply degrees_lt in L1, L2. rewrite degrees_radians in L2.
  assert (degrees (PI / 2) = 90) by (unfold degrees; field; apply PI_neq0).
  lra.
Qed.

Lemma equator_day_length_witness :
  supported_date 2000 1 1 = true /\ supported_lon 0 /\
  exists v, result (dayLength 2000 1 1 0 0) = Ok v /\ 12 < v < 12.3.
Proof.
  assert (Hl : supported_lon 0) by (unfold supported_lon; lra).
  split; [reflexivity |]. split; [exact Hl |].
  exact (equator_day_length 2000 1 1 0 eq_refl Hl).
Defined.

(** ** Solar altitude, equation of time and flux *)

Lemma solar_altitude_range_witness :
  supported_date 2008 10 31 = true /\ -66.5 <= 55.946124 <= 90 /\
  exists v, result (__solar_altitude 55.946124 2008 10 31) = Ok v /\ 0 <= v <= 90.
Proof.
  assert (Hl : -66.5 <= 55.946124 <= 90) by lra.
  split; [reflexivity |]. split; [exact Hl |].
  exact (solar_altitude_range 55.946124 2008 10 31 eq_refl Hl).
Defined.

Lemma solcons_value a :
  exists c, __solcons a = ret c /\ 0.964 < c < 1.038.
Proof.
  unfold __solcons.
  pose proof (SIN_bound a). pose proof (COS_bound a).
  pose proof (COS_bound (2 * a)). pose proof (SIN_bound (3 * a)).
  pose proof (COS_bound (4 * a)).
  set (b := 1 - 9.464e-4 * sin a - 0.01671 * cos a - 1.489e-4 * cos (2 * a)
            - 2.917e-5 * sin (3 * a) - 3.438e-4 * cos (4 * a)).
  assert (Hb : 0.9818 < b < 1.0182) by (unfold b; lra).
  assert (Hq : 0.9639 < b ^ 2 < 1.0368) by (simpl; nra).
  eexists. split; [apply fdiv_ok; lra |].
  assert (E : 1 / b ^ 2 * b ^ 2 = 1) by (field; lra).
  set (c := 1 / b ^ 2) in *. nra.
Qed.

Lemma julian_some_range y m d :
  (-12 <= m <= 13)%Z -> exists n, __julian y m d = Some n.
Proof.
  intros Hm. destruct (__julian y m d) eqn:E; [eexists; reflexivity |].
  apply julian_none_iff in E. lia.
Qed.

(** [__equation_of_time] returns a solar constant between 1317 and 1419
    W/m2, and declination terms whose sum is the cosine of an angle. *)
Theorem equation_of_time_components y m d lat :
  (-12 <= m <= 13)%Z ->
  exists fEot fR0r d1 d2,
    __equation_of_time y m d lat = ret (fEot, fR0r, (d1, d2)) /\
    1317 < fR0r < 1419 /\ -1 <= d1 + d2 <= 1.
Proof.
  intros Hm. destruct (julian_some_range y m d Hm) as [n Hn].
  unfold __equation_of_time. rewrite Hn, bind_ret.
  destruct (solcons_value (IZR n * (2 * PI / (if isleap y then 366 else 365))))
    as (c & Hc & Hcb).
  rewrite Hc, bind_ret. eexists _, _, _, _. split; [reflexivity |].
  split; [lra |].
  unfold __sind, __cosd.
  match goal with
  | |- _ <= sin ?a * sin ?b + cos ?a * cos ?b <= _ =>
      replace (sin a * sin b + cos a * cos b) with (cos (a - b))
        by (rewrite cos_minus; ring);
      apply COS_bound
  end.
Qed.

Lemma equation_of_time_components_witness :
  (-12 <= 1 <= 13)%Z /\
  exists fEot fR0r d1 d2,
    __equation_of_time 2004 1 30 46.2 = ret (fEot, fR0r, (d1, d2)) /\
    1317 < fR0r < 1419.
Proof.
  assert (Hm : (-12 <= 1 <= 13)%Z) by lia. split; [exact Hm |].
  destruct (equation_of_time_components 2004 1 30 46.2 Hm)
    as (fEot & fR0r & d1 & d2 & H1 & H2 & _).
  exists fEot, fR0r, d1, d2. split; assumption.
Defined.

Lemma attenuation_negative x : 0 <= x <= 83 -> attenuation x < 0.
Proof.
  intros Hx. unfold attenuation. simpl.
  assert (0 <= x * x) by nra.
  assert (0 <= x * (x * (x * (x * 1)))) by nra.
  assert (x * (x * (x * 1)) <= 83 * (x * x)) by nra.
  nra.
Qed.

Lemma equation_of_time_returns y m d lat :
  (-12 <= m <= 13)%Z ->
  exists fEot fR0r d1 d2,
    __equation_of_time y m d lat = ret (fEot, fR0r, (d1, d2)).
Proof.
  intros Hm. destruct (julian_some_range y m d Hm) as [n Hn].
  unfold __equation_of_time. rewrite Hn, bind_ret.
  destruct (solcons_value (IZR n * (2 * PI / (if isleap y then 366 else 365))))
    as (c & Hc & _).
  rewrite Hc, bind_ret. eexists _, _, _, _. reflexivity.
Qed.

(** [__get_max_solar_flux] raises [IndexError] exactly for a month below
    -12 or above 13; otherwise it returns a flux [v >= 0], and [v = 0]
    as soon as the declination-derived flux is at most 83 W/m2. *)
Theorem max_solar_flux_errors_and_cutoff lat y m d :
  (result (__get_max_solar_flux lat y m d) = Raise IndexError
   <-> (m < -12 \/ 13 < m)%Z) /\
  ((-12 <= m <= 13)%Z ->
   exists fEot fR0r d1 d2 v,
     __equation_of_time y m d lat = ret (fEot, fR0r, (d1, d2)) /\
     result (__get_max_solar_flux lat y m d) = Ok v /\
     0 <= v /\
     ((d1 + d2) * fR0r <= 83 -> v = 0)).
Proof.
  assert (Hok : (-12 <= m <= 13)%Z ->
   exists fEot fR0r d1 d2 v,
     __equation_of_time y m d lat = ret (fEot, fR0r, (d1, d2)) /\
     result (__get_max_solar_flux lat y m d) = Ok v /\
     0 <= v /\
     ((d1 + d2) * fR0r <= 83 -> v = 0)).
  { intros Hm.
    destruct (equation_of_time_returns y m d lat Hm)
      as (fEot & fR0r & d1 & d2 & He).
    eexists fEot, fR0r, d1, d2, _. split; [exact He |].
    unfold __get_max_solar_flux. rewrite He, bind_ret. simpl fst. simpl snd.
    split; [reflexivity |]. cbv zeta.
    set (fSF := (d1 + d2) * fR0r).
    destruct (Rlt_dec fSF 0) as [Hneg | Hpos].
    - rewrite Rmult_0_r. destruct (Rlt_dec 0 0); [lra |]. split; [lra | reflexivity].
    - destruct (Rlt_dec (fSF * attenuation fSF) 0) as [Hn | Hn].
      + split; [lra | reflexivity].
      + split; [lra |]. intros Hlow.
        pose proof (attenuation_negative fSF ltac:(lra)). nra. }
  split; [| exact Hok]. split.
  - intros H. destruct (Z_le_dec (-12) m) as [H1 | H1]; [| lia].
    destruct (Z_le_dec m 13) as [H2 | H2]; [| lia].
    destruct (Hok (conj H1 H2)) as (? & ? & ? & ? & v & _ & Hv & _).
    rewrite Hv in H. discriminate.
  - intros Hm. apply julian_none_iff with (y := y) (d := d) in Hm.
    unfold __get_max_solar_flux, __equation_of_time. rewrite Hm. reflexivity.
Qed.

(** ** The clock of the calendar events *)

Import Suncal.











